(** * SensorThings conversion of the Smart Urban Heat Map API

    A shallow embedding of the conversion pipeline of the repository:

    - [latest/SensorThingsConverter_Latest.py]: the snapshot facade
      (client, GeoJSON loader, the four entity builders, [convert]);
    - [timeseries/SensorThingsConverter_Timeseries.py]: the time-series
      facade (client, observation builder, [convert_timeseries]);
    - [SensorThingsConverter.py]: the older single-class snapshot
      converter ([fetch_latest], [convert_to_sensorthings],
      [fetch_and_convert]).

    Python values are a small inductive type; a raised exception is an
    explicit [Raise] result; [print] is a writer effect; the network,
    pandas, geopandas and the json decoder are the fields of a class
    [World] on which every effectful definition depends. *)

From Stdlib Require Import ZArith.
From Stdlib Require Import Floats.PrimFloat.
From stdpp Require Import base option list strings gmap pretty.

Local Set Warnings "-register-all,-inexact-float".
Local Open Scope string_scope.
Local Open Scope Z_scope.
Local Open Scope list_scope.

(** ** Python values *)

Module Py.

(** The values that travel through the converters: JSON values as
    [json.loads] and [response.json()] build them, the cells of a
    (Geo)DataFrame row, and the dict and list literals of the builders.
    A dict keeps its insertion order, so it is an association list; a
    lookup takes the first binding of the key. *)
Inductive pyval : Type :=
  | PyNone
  | PyBool (b : bool)
  | PyInt (n : Z)
  | PyFloat (f : float)
  | PyStr (s : string)
  | PyList (l : list pyval)
  | PyDict (d : list (string * pyval))
  | PyTimestamp (iso : string)
      (* a pandas.Timestamp; [iso] is what its isoformat() returns *)
  | PyDatetime (iso : string)
      (* another object with an isoformat method: datetime, date, NaT *)
  | PyPoint (x y : float)
      (* a shapely.geometry.Point with its x and y *)
  | PyEmptyPoint
      (* a shapely.geometry.Point without coordinates, POINT EMPTY *)
  | PyGeometry (cls : string).
      (* a shapely geometry of another class, with the name of the class *)

(** Exceptions: instances of (subclasses of) [Exception], with the class
    the [except] clauses of the source discriminate on and the text that
    [str(e)] gives. *)
Inductive exn_class : Type :=
  | ValueError
  | TypeError
  | AttributeError
  | KeyError
  | JSONDecodeError
  | HTTPError
  | OtherException (name : string).

Record exn : Type := Exn { exn_cls : exn_class; exn_str : string }.

(** The outcome of an expression that may raise. *)
Inductive result (A : Type) : Type :=
  | Return (a : A)
  | Raise (e : exn).
Global Arguments Return {A} a.
Global Arguments Raise {A} e.

Definition rbind {A B} (m : result A) (k : A -> result B) : result B :=
  match m with
  | Return a => k a
  | Raise e => Raise e
  end.

(** A computation that also prints: its outcome and the lines written
    to standard output, oldest first. *)
Record io (A : Type) : Type := IO { outcome : result A; stdout : list string }.
Global Arguments IO {A} outcome stdout.
Global Arguments outcome {A} i.
Global Arguments stdout {A} i.

Definition io_ret {A} (a : A) : io A := IO (Return a) [].
Definition io_raise {A} (e : exn) : io A := IO (Raise e) [].
Definition io_lift {A} (r : result A) : io A := IO r [].
Definition print (line : string) : io unit := IO (Return tt) [line].

Definition io_bind {A B} (m : io A) (k : A -> io B) : io B :=
  match outcome m with
  | Return a => let n := k a in IO (outcome n) (stdout m ++ stdout n)
  | Raise e => IO (Raise e) (stdout m)
  end.

(** [try: body except C as e: handler(e)], where [catches] tells
    whether the class of the raised exception is [C] or a subclass of it;
    an exception of another class passes through. *)
Definition try_except {A} (body : io A) (catches : exn_class -> bool)
    (handler : exn -> io A) : io A :=
  match outcome body with
  | Return a => body
  | Raise e =>
      if catches (exn_cls e)
      then let h := handler e in IO (outcome h) (stdout body ++ stdout h)
      else body
  end.

(** Every modelled exception class derives from [Exception]. *)
Definition is_Exception (c : exn_class) : bool := true.

Definition is_JSONDecodeError (c : exn_class) : bool :=
  match c with
  | JSONDecodeError => true
  | _ => false
  end.

End Py.
Export Py.

Declare Scope py_scope.
Delimit Scope py_scope with py.
Notation "'let!' x := m 'in' k" := (rbind m (fun x => k))
  (at level 10, x name, m at level 200, k at level 200) : py_scope.
Notation "'io!' x := m 'in' k" := (io_bind m (fun x => k))
  (at level 10, x name, m at level 200, k at level 200) : py_scope.
Notation "'run!' m 'in' k" := (io_bind m (fun _ => k))
  (at level 10, m at level 200, k at level 200) : py_scope.
Local Open Scope py_scope.

(** ** Python operations used by the converters *)

Module PyOps.

(** [d.get(k)] on the bindings of a dict. *)
Fixpoint dict_get (k : string) (d : list (string * pyval)) : option pyval :=
  match d with
  | [] => None
  | (k', v) :: d' => if String.eqb k k' then Some v else dict_get k d'
  end.

Definition type_name (v : pyval) : string :=
  match v with
  | PyNone => "NoneType"
  | PyBool _ => "bool"
  | PyInt _ => "int"
  | PyFloat _ => "float"
  | PyStr _ => "str"
  | PyList _ => "list"
  | PyDict _ => "dict"
  | PyTimestamp _ => "Timestamp"
  | PyDatetime _ => "datetime"
  | PyPoint _ _ => "Point"
  | PyEmptyPoint => "Point"
  | PyGeometry cls => cls
  end.

Definition no_attribute (v : pyval) (attr : string) : exn :=
  Exn AttributeError
      ("'" +:+ type_name v +:+ "' object has no attribute '" +:+ attr +:+ "'").

(** [v.get(k, default)]: only a dict has the method. *)
Definition py_get (v : pyval) (k : string) (default : pyval) : result pyval :=
  match v with
  | PyDict d => Return (from_option id default (dict_get k d))
  | _ => Raise (no_attribute v "get")
  end.

(** [k in v] for a dict [v]; the converters only evaluate it after
    [v.get] has succeeded, that is on a dict. *)
Definition py_in (k : string) (v : pyval) : bool :=
  match v with
  | PyDict d => bool_decide (is_Some (dict_get k d))
  | _ => false
  end.

(** [v[k]] for a string key. *)
Definition py_getitem (v : pyval) (k : string) : result pyval :=
  match v with
  | PyDict d =>
      match dict_get k d with
      | Some x => Return x
      | None => Raise (Exn KeyError ("'" +:+ k +:+ "'"))
      end
  | _ => Raise (Exn TypeError
                  ("'" +:+ type_name v +:+ "' object is not subscriptable"))
  end.

(** Truth value testing, as [if v:] and [not v] do it. *)
Definition str_truthy (s : string) : bool := negb (String.eqb s "").

Definition py_truthy (v : pyval) : bool :=
  match v with
  | PyNone => false
  | PyBool b => b
  | PyInt n => negb (Z.eqb n 0)
  | PyFloat f => negb (PrimFloat.eqb f 0%float)
  | PyStr s => str_truthy s
  | PyList l => negb (bool_decide (l = []))
  | PyDict d => negb (bool_decide (d = []))
  | _ => true
  end.

Definition opt_truthy (o : option string) : bool :=
  match o with
  | Some s => str_truthy s
  | None => false
  end.

(** [for x in v]: the items a loop over [v] visits.  A str yields its
    characters (here one per byte), a dict its keys. *)
Definition py_iter (v : pyval) : result (list pyval) :=
  match v with
  | PyList l => Return l
  | PyStr s => Return ((fun a => PyStr (String a "")) <$> String.list_ascii_of_string s)
  | PyDict d => Return ((fun kv => PyStr kv.1) <$> d)
  | _ => Raise (Exn TypeError
                  ("'" +:+ type_name v +:+ "' object is not iterable"))
  end.

(** [hasattr(v, 'isoformat')] and [v.isoformat()]. *)
Definition has_isoformat (v : pyval) : bool :=
  match v with
  | PyTimestamp _ | PyDatetime _ => true
  | _ => false
  end.

Definition isoformat (v : pyval) : result string :=
  match v with
  | PyTimestamp iso | PyDatetime iso => Return iso
  | _ => Raise (no_attribute v "isoformat")
  end.

(** [isinstance(v, pd.Timestamp)] *)
Definition is_pd_Timestamp (v : pyval) : bool :=
  match v with
  | PyTimestamp _ => true
  | _ => false
  end.

(** [isinstance(geom, Point)] *)
Definition is_Point (geom : pyval) : bool :=
  match geom with
  | PyPoint _ _ | PyEmptyPoint => true
  | _ => false
  end.

(** bytes.strip(): ASCII whitespace removed at both ends. *)
Definition is_whitespace (a : Ascii.ascii) : bool :=
  let n := Ascii.N_of_ascii a in
  ((9 <=? n) && (n <=? 13) || (n =? 32))%N.

Fixpoint lstrip (s : string) : string :=
  match s with
  | String a s' => if is_whitespace a then lstrip s' else s
  | EmptyString => EmptyString
  end.

Definition strip (s : string) : string :=
  String.rev (lstrip (String.rev (lstrip s))).

End PyOps.
Export PyOps.

(** ** The environment *)

(** A [requests.Response], reduced to what the clients read. *)
Record response : Type := Response {
  status_code : Z;
  reason : string;
  url : string;
  content : string;        (* the body as bytes *)
  text : string;           (* the body decoded *)
  json : result pyval      (* what response.json() does *)
}.

(** A row of a (Geo)DataFrame, a pandas Series: column name to cell. *)
Abbreviation row := (gmap string pyval).

(** What the converters call and do not define. *)
Class World : Type := {
  (* requests.get(url): the response, or a transport exception *)
  requests_get : string -> result response;
  (* json.loads(s) *)
  json_loads : string -> result pyval;
  (* gpd.GeoDataFrame.from_features(data, crs=crs), as its rows *)
  from_features : pyval -> pyval -> result (list row);
  (* gpd.read_file(text), as its rows *)
  gpd_read_file : string -> result (list row);
  (* pd.to_datetime(v) *)
  pd_to_datetime : pyval -> result pyval;
  (* str(v) for the values whose text the model does not compute:
     floats, containers, timestamps, geometries *)
  py_repr : pyval -> string;
  (* what shapely raises for the x or y of a Point without coordinates *)
  empty_point_error : exn
}.

(** [str(v)], which is also what an f-string field [{v}] inserts. *)
Definition py_str `{World} (v : pyval) : string :=
  match v with
  | PyStr s => s
  | PyNone => "None"
  | PyBool true => "True"
  | PyBool false => "False"
  | PyInt n => pretty n
  | _ => py_repr v
  end.

(** [geom.x] and [geom.y] of a shapely geometry: the coordinate of a
    Point; a Point without coordinates has none, and another geometry
    has no such attribute. *)
Definition point_x `{World} (geom : pyval) : result float :=
  match geom with
  | PyPoint x _ => Return x
  | PyEmptyPoint => Raise empty_point_error
  | _ => Raise (no_attribute geom "x")
  end.

Definition point_y `{World} (geom : pyval) : result float :=
  match geom with
  | PyPoint _ y => Return y
  | PyEmptyPoint => Raise empty_point_error
  | _ => Raise (no_attribute geom "y")
  end.

(** [row.get(key, default)] and [row[key]] on a Series. *)
Definition row_get (r : row) (key : string) (default : pyval) : pyval :=
  from_option id default (r !! key).

Definition row_getitem (r : row) (key : string) : result pyval :=
  match r !! key with
  | Some v => Return v
  | None => Raise (Exn KeyError ("'" +:+ key +:+ "'"))
  end.

(** [response.raise_for_status()]: HTTPError on a 4xx or 5xx status. *)
Definition raise_for_status (r : response) : result unit :=
  if ((400 <=? status_code r) && (status_code r <? 500))%Z then
    Raise (Exn HTTPError (pretty (status_code r) +:+ " Client Error: "
                          +:+ reason r +:+ " for url: " +:+ url r))
  else if ((500 <=? status_code r) && (status_code r <? 600))%Z then
    Raise (Exn HTTPError (pretty (status_code r) +:+ " Server Error: "
                          +:+ reason r +:+ " for url: " +:+ url r))
  else Return tt.

(** ** latest/SensorThingsConverter_Latest.py *)

Module Latest.

Record SmartUrbanHeatMapClient : Type := { base_url : string }.

Definition default_base_url : string := "https://smart-urban-heat-map.ch/api/v2".

Section Client.
Context `{World}.

(** SmartUrbanHeatMapClient.fetch_latest *)
Definition fetch_latest (self : SmartUrbanHeatMapClient) : result string :=
  let url := base_url self +:+ "/latest" in
  let! response := requests_get url in
  let! _ := raise_for_status response in
  Return (text response).

(** GeoDataLoader.load *)
Definition GeoDataLoader_load (geojson_str : string) : result (list row) :=
  let! data := json_loads geojson_str in
  let! crs0 := py_get data "crs" (PyDict []) in
  let! crs1 := py_get crs0 "properties" (PyDict []) in
  let! crs := py_get crs1 "name" PyNone in
  from_features data crs.
End Client.

(** *** The entity builders

    Each [build] is the loop of the source: a list that starts empty
    and is appended to, row after row.  The dict literal of a loop body
    has a name of its own. *)

Definition thing_entity (r : row) : pyval :=
  PyDict [
    ("@iot.id", row_get r "stationId" PyNone);
    ("name", row_get r "name" (PyStr ""));
    ("description", PyStr "Sensor station measuring temperature and humidity");
    ("properties", PyDict [
       ("outdated", row_get r "outdated" PyNone);
       ("measurementsPlausible", row_get r "measurementsPlausible" PyNone)])
  ].

(** ThingBuilder.build *)
Definition ThingBuilder_build (df : list row) : list pyval :=
  fold_left (fun things r => things ++ [thing_entity r]) df [].

Definition location_entity (r : row) (x y : float) : pyval :=
  let coords := PyList [PyFloat x; PyFloat y] in
  PyDict [
    ("@iot.id", row_get r "stationId" PyNone);
    ("name", row_get r "name" (PyStr ""));
    ("description", PyStr "Geographic location of the sensor");
    ("encodingType", PyStr "application/vnd.geo+json");
    ("location", PyDict [("type", PyStr "Point"); ("coordinates", coords)])
  ].

Section Builders.
Context `{World}.

(** The loop of LocationBuilder.build, from the locations made so far.
    Reading [geom.x] or [geom.y] may raise, and then the loop ends. *)
Fixpoint LocationBuilder_loop (locations : list pyval) (df : list row)
    : result (list pyval) :=
  match df with
  | [] => Return locations
  | r :: rest =>
      let geom := row_get r "geometry" PyNone in
      if negb (is_Point geom) then LocationBuilder_loop locations rest
      else
        let! x := point_x geom in
        let! y := point_y geom in
        LocationBuilder_loop (locations ++ [location_entity r x y]) rest
  end.

(** LocationBuilder.build *)
Definition LocationBuilder_build (df : list row) : result (list pyval) :=
  LocationBuilder_loop [] df.

Definition temperature_datastream (r : row) : pyval :=
  let sid := row_get r "stationId" PyNone in
  let name := row_get r "name" (PyStr "") in
  PyDict [
    ("@iot.id", PyStr (py_str sid +:+ "-temperature"));
    ("name", PyStr ("Temperature Datastream for " +:+ py_str name));
    ("description", PyStr "Temperature measurements");
    ("unitOfMeasurement", PyDict [
       ("symbol", PyStr "°C");
       ("name", PyStr "Degree Celsius");
       ("definition", PyStr "http://unitsofmeasure.org/ucum.html#para-30")]);
    ("observationType",
     PyStr "http://www.opengis.net/def/observationType/OGC-OM/2.0/OM_Measurement");
    ("Thing", PyDict [("@iot.id", sid)]);
    ("ObservedProperty", PyDict [
       ("name", PyStr "Temperature");
       ("definition", PyStr "http://sensorthings.org/Temperature")]);
    ("Sensor", PyDict [
       ("name", PyStr "Temperature Sensor");
       ("description", PyStr "Measures air temperature")])
  ].

Definition humidity_datastream (r : row) : pyval :=
  let sid := row_get r "stationId" PyNone in
  let name := row_get r "name" (PyStr "") in
  PyDict [
    ("@iot.id", PyStr (py_str sid +:+ "-humidity"));
    ("name", PyStr ("Humidity Datastream for " +:+ py_str name));
    ("description", PyStr "Humidity measurements");
    ("unitOfMeasurement", PyDict [
       ("symbol", PyStr "%");
       ("name", PyStr "Percentage");
       ("definition", PyStr "http://unitsofmeasure.org/ucum.html#para-30")]);
    ("observationType",
     PyStr "http://www.opengis.net/def/observationType/OGC-OM/2.0/OM_Measurement");
    ("Thing", PyDict [("@iot.id", sid)]);
    ("ObservedProperty", PyDict [
       ("name", PyStr "Humidity");
       ("definition", PyStr "http://sensorthings.org/Humidity")]);
    ("Sensor", PyDict [
       ("name", PyStr "Humidity Sensor");
       ("description", PyStr "Measures relative humidity")])
  ].

(** DataStreamBuilder.build *)
Definition DataStreamBuilder_build (df : list row) : list pyval :=
  fold_left
    (fun dstreams r =>
       let dstreams := dstreams ++ [temperature_datastream r] in
       dstreams ++ [humidity_datastream r])
    df [].

(** [ts.isoformat() if hasattr(ts, 'isoformat') else str(ts)] *)
Definition ts_iso_of (ts : pyval) : string :=
  match ts with
  | PyTimestamp iso | PyDatetime iso => iso
  | _ => py_str ts
  end.

Definition temperature_observation (r : row) : pyval :=
  let sid := row_get r "stationId" PyNone in
  let ts := row_get r "dateObserved" PyNone in
  let ts_iso := ts_iso_of ts in
  PyDict [
    ("Datastream", PyDict [("@iot.id", PyStr (py_str sid +:+ "-temperature"))]);
    ("phenomenonTime", PyStr ts_iso);
    ("resultTime", PyStr ts_iso);
    ("result", row_get r "temperature" PyNone)
  ].

Definition humidity_observation (r : row) : pyval :=
  let sid := row_get r "stationId" PyNone in
  let ts := row_get r "dateObserved" PyNone in
  let ts_iso := ts_iso_of ts in
  PyDict [
    ("Datastream", PyDict [("@iot.id", PyStr (py_str sid +:+ "-humidity"))]);
    ("phenomenonTime", PyStr ts_iso);
    ("resultTime", PyStr ts_iso);
    ("result", row_get r "relativeHumidity" PyNone)
  ].

(** ObservationBuilder.build *)
Definition ObservationBuilder_build (df : list row) : list pyval :=
  fold_left
    (fun observations r =>
       let observations := observations ++ [temperature_observation r] in
       observations ++ [humidity_observation r])
    df [].

(** *** The facade *)

Record SensorThingsConverter : Type := { client : SmartUrbanHeatMapClient }.

(** SensorThingsConverter.__init__ *)
Definition SensorThingsConverter_init (base_url : option string)
    : SensorThingsConverter :=
  let client_url :=
    if opt_truthy base_url then default "" base_url else default_base_url in
  {| client := {| base_url := client_url |} |}.

(** The dict that [convert] returns, for the rows [df]: the four
    builders run in the order of the keys. *)
Definition entities (df : list row) : result pyval :=
  let things := ThingBuilder_build df in
  let! locations := LocationBuilder_build df in
  let datastreams := DataStreamBuilder_build df in
  let observations := ObservationBuilder_build df in
  Return (PyDict [
    ("Things", PyList things);
    ("Locations", PyList locations);
    ("Datastreams", PyList datastreams);
    ("Observations", PyList observations)
  ]).

(** SensorThingsConverter.convert *)
Definition convert (self : SensorThingsConverter) : result pyval :=
  let! raw := fetch_latest (client self) in
  let! df := GeoDataLoader_load raw in
  entities df.
End Builders.

End Latest.

(** ** timeseries/SensorThingsConverter_Timeseries.py *)

Module Timeseries.

Record SmartUrbanHeatMapClient : Type := { base_url : string }.

Definition default_base_url : string := "https://smart-urban-heat-map.ch/api/v2".

Section Timeseries.
Context `{World}.

(** SmartUrbanHeatMapClient.fetch_timeseries *)
Definition fetch_timeseries (self : SmartUrbanHeatMapClient)
    (station_id : string) (time_from time_to : option string) : io pyval :=
  let url := base_url self +:+ "/timeseries?stationId=" +:+ station_id in
  let url :=
    if opt_truthy time_from
    then url +:+ "&timeFrom=" +:+ default "" time_from else url in
  let url :=
    if opt_truthy time_to
    then url +:+ "&timeTo=" +:+ default "" time_to else url in
  io! response := io_lift (requests_get url) in
  if (status_code response =? 204)
     || negb (str_truthy (strip (content response)))
  then io_ret (PyList [])
  else
    try_except (io_lift (json response)) is_JSONDecodeError
      (fun _ =>
         run! print ("WARNUNG: Antwort von Station " +:+ station_id
                     +:+ " ist kein gültiges JSON.") in
         io_ret (PyList [])).

(** The body of the loop of TimeSeriesObservationBuilder.build: the
    observations list after the entry has been handled. *)
Definition build_entry (station_id : string) (observations : list pyval)
    (entry : pyval) : result (list pyval) :=
  let! date_observed := py_get entry "dateObserved" PyNone in
  let! ts := pd_to_datetime date_observed in
  let! ts_iso := isoformat ts in
  let! observations :=
    if py_in "temperature" entry then
      let! temperature := py_getitem entry "temperature" in
      Return (observations ++ [PyDict [
        ("Datastream",
         PyDict [("@iot.id", PyStr (station_id +:+ "-temperature"))]);
        ("phenomenonTime", PyStr ts_iso);
        ("resultTime", PyStr ts_iso);
        ("result", temperature)]])
    else Return observations in
  if py_in "relativeHumidity" entry then
    let! humidity := py_getitem entry "relativeHumidity" in
    Return (observations ++ [PyDict [
      ("Datastream",
       PyDict [("@iot.id", PyStr (station_id +:+ "-humidity"))]);
      ("phenomenonTime", PyStr ts_iso);
      ("resultTime", PyStr ts_iso);
      ("result", humidity)]])
  else Return observations.

Fixpoint build_loop (station_id : string) (observations : list pyval)
    (entries : list pyval) : result (list pyval) :=
  match entries with
  | [] => Return observations
  | entry :: rest =>
      let! observations := build_entry station_id observations entry in
      build_loop station_id observations rest
  end.

(** TimeSeriesObservationBuilder.build *)
Definition TimeSeriesObservationBuilder_build (station_id : string)
    (timeseries_data : pyval) : result (list pyval) :=
  let! entries := py_iter timeseries_data in
  build_loop station_id [] entries.

Record SensorThingsConverter : Type := { client : SmartUrbanHeatMapClient }.

(** SensorThingsConverter.__init__ *)
Definition SensorThingsConverter_init (base_url : option string)
    : SensorThingsConverter :=
  let client_url :=
    if opt_truthy base_url then default "" base_url else default_base_url in
  {| client := {| base_url := client_url |} |}.

(** [ts_data.get("values", []) if isinstance(ts_data, dict) else ts_data] *)
Definition timeseries_values (ts_data : pyval) : pyval :=
  match ts_data with
  | PyDict d => default (PyList []) (dict_get "values" d)
  | _ => ts_data
  end.

(** SensorThingsConverter.convert_timeseries *)
Definition convert_timeseries (self : SensorThingsConverter)
    (station_id : string) (time_from time_to : option string) : io pyval :=
  if negb (str_truthy station_id) then
    io_raise (Exn ValueError
                "Bitte gib eine gültige stationId mit --stationId an.")
  else
    try_except
      (io! ts_data :=
         fetch_timeseries (client self) station_id time_from time_to in
       let values := timeseries_values ts_data in
       if negb (py_truthy values) then
         run! print ("Keine Zeitreihen-Daten für Station " +:+ station_id) in
         io_ret (PyDict [("Observations", PyList [])])
       else
         io! observations :=
           io_lift (TimeSeriesObservationBuilder_build station_id values) in
         io_ret (PyDict [("Observations", PyList observations)]))
      is_Exception
      (fun e =>
         run! print ("Fehler beim Abrufen der Zeitreihe für Station "
                     +:+ station_id +:+ ": " +:+ exn_str e) in
         io_ret (PyDict [("Observations", PyList [])])).
End Timeseries.

End Timeseries.

(** ** SensorThingsConverter.py, the older converter *)

Module Legacy.

Record SensorThingsConverter : Type := { base_url : string }.

Section Legacy.
Context `{World}.

(** SensorThingsConverter.fetch_latest: the rows, or None. *)
Definition fetch_latest (self : SensorThingsConverter)
    : io (option (list row)) :=
  let url := base_url self +:+ "/latest" in
  io! response := io_lift (requests_get url) in
  if status_code response =? 200 then
    io! data := io_lift (gpd_read_file (text response)) in
    io_ret (Some data)
  else
    run! print ("Error: Request failed with status code "
                +:+ pretty (status_code response)) in
    io_ret None.

(** [geom.x] and [geom.y] *)
Definition geom_x (geom : pyval) : result pyval :=
  match geom with
  | PyPoint x _ => Return (PyFloat x)
  | PyEmptyPoint => Raise empty_point_error
  | _ => Raise (no_attribute geom "x")
  end.

Definition geom_y (geom : pyval) : result pyval :=
  match geom with
  | PyPoint _ y => Return (PyFloat y)
  | PyEmptyPoint => Raise empty_point_error
  | _ => Raise (no_attribute geom "y")
  end.

(** [v.isoformat() if isinstance(v, pd.Timestamp) else str(v)] *)
Definition timestamp_text (v : pyval) : string :=
  match v with
  | PyTimestamp iso => iso
  | _ => py_str v
  end.

(** The four lists of [convert_to_sensorthings]. *)
Record collections : Type := {
  things : list pyval;
  locations : list pyval;
  datastreams : list pyval;
  observations : list pyval
}.

(** The body of the loop of [convert_to_sensorthings]. *)
Definition convert_row (acc : collections) (r : row) : result collections :=
  let! thing_id := row_getitem r "stationId" in
  let! location_geometry := row_getitem r "geometry" in
  let! name := row_getitem r "name" in
  let! outdated := row_getitem r "outdated" in
  let! plausible := row_getitem r "measurementsPlausible" in
  let thing := PyDict [
    ("@iot.id", thing_id);
    ("name", name);
    ("description", PyStr "Sensor measuring temperature and humidity");
    ("properties", PyDict [("outdated", outdated);
                           ("measurementsPlausible", plausible)])] in
  let things := things acc ++ [thing] in
  let! x := geom_x location_geometry in
  let! y := geom_y location_geometry in
  let location := PyDict [
    ("@iot.id", thing_id);
    ("name", name);
    ("description", PyStr "Geographic location of the sensor");
    ("encodingType", PyStr "application/vnd.geo+json");
    ("location", PyDict [("type", PyStr "Point");
                         ("coordinates", PyList [x; y])])] in
  let locations := locations acc ++ [location] in
  let datastream_temp := PyDict [
    ("@iot.id", PyStr (py_str thing_id +:+ "-temperature"));
    ("name", PyStr ("Temperature Datastream for " +:+ py_str name));
    ("description", PyStr "Temperature measurements");
    ("unitOfMeasurement", PyDict [
       ("symbol", PyStr "°C");
       ("name", PyStr "Degree Celsius");
       ("definition", PyStr "http://unitsofmeasure.org/ucum.html#para-30")]);
    ("observationType",
     PyStr "http://www.opengis.net/def/observationType/OGC-OM/2.0/OM_Measurement");
    ("Thing", PyDict [("@iot.id", thing_id)]);
    ("ObservedProperty", PyDict [
       ("name", PyStr "Temperature");
       ("definition", PyStr "http://sensorthings.org/Temperature")]);
    ("Sensor", PyDict [
       ("name", PyStr "Temperature Sensor");
       ("description", PyStr "Measures air temperature")])] in
  let datastream_hum := PyDict [
    ("@iot.id", PyStr (py_str thing_id +:+ "-humidity"));
    ("name", PyStr ("Humidity Datastream for " +:+ py_str name));
    ("description", PyStr "Humidity measurements");
    ("unitOfMeasurement", PyDict [
       ("symbol", PyStr "%");
       ("name", PyStr "Percentage");
       ("definition", PyStr "http://unitsofmeasure.org/ucum.html#para-30")]);
    ("observationType",
     PyStr "http://www.opengis.net/def/observationType/OGC-OM/2.0/OM_Measurement");
    ("Thing", PyDict [("@iot.id", thing_id)]);
    ("ObservedProperty", PyDict [
       ("name", PyStr "Humidity");
       ("definition", PyStr "http://sensorthings.org/Humidity")]);
    ("Sensor", PyDict [
       ("name", PyStr "Humidity Sensor");
       ("description", PyStr "Measures relative humidity")])] in
  let datastreams := datastreams acc ++ [datastream_temp] in
  let datastreams := datastreams ++ [datastream_hum] in
  let! date_observed := row_getitem r "dateObserved" in
  let! temperature := row_getitem r "temperature" in
  let observation_temp := PyDict [
    ("Datastream", PyDict [("@iot.id", PyStr (py_str thing_id +:+ "-temperature"))]);
    ("phenomenonTime", PyStr (timestamp_text date_observed));
    ("resultTime", PyStr (timestamp_text date_observed));
    ("result", temperature)] in
  let! humidity := row_getitem r "relativeHumidity" in
  let observation_hum := PyDict [
    ("Datastream", PyDict [("@iot.id", PyStr (py_str thing_id +:+ "-humidity"))]);
    ("phenomenonTime", PyStr (timestamp_text date_observed));
    ("resultTime", PyStr (timestamp_text date_observed));
    ("result", humidity)] in
  let observations := observations acc ++ [observation_temp] in
  let observations := observations ++ [observation_hum] in
  Return {| things := things; locations := locations;
            datastreams := datastreams; observations := observations |}.

Fixpoint convert_rows (acc : collections) (data : list row)
    : result collections :=
  match data with
  | [] => Return acc
  | r :: rest =>
      let! acc := convert_row acc r in
      convert_rows acc rest
  end.

(** SensorThingsConverter.convert_to_sensorthings *)
Definition convert_to_sensorthings (data : option (list row))
    : io (option pyval) :=
  match data with
  | None =>
      run! print "No data available for conversion." in
      io_ret None
  | Some rows =>
      io! c := io_lift (convert_rows
                 {| things := []; locations := [];
                    datastreams := []; observations := [] |} rows) in
      let sensorthings_data := PyDict [
        ("Things", PyList (things c));
        ("Locations", PyList (locations c));
        ("Datastreams", PyList (datastreams c));
        ("Observations", PyList (observations c))] in
      io_ret (Some sensorthings_data)
  end.

(** SensorThingsConverter.fetch_and_convert *)
Definition fetch_and_convert (self : SensorThingsConverter)
    : io (option pyval) :=
  io! latest_data := fetch_latest self in
  match latest_data with
  | Some _ => convert_to_sensorthings latest_data
  | None => io_ret None
  end.
End Legacy.

End Legacy.

(** ** Reading the entities *)

(** [v[k]] as an option, for the statements about the output. *)
Definition field (v : pyval) (k : string) : option pyval :=
  match v with
  | PyDict d => dict_get k d
  | _ => None
  end.

(** The list under the key [k] of a result dictionary. *)
Definition collection (v : pyval) (k : string) : list pyval :=
  match field v k with
  | Some (PyList l) => l
  | _ => []
  end.

(** The Datastream an Observation refers to: [o["Datastream"]["@iot.id"]]. *)
Definition datastream_ref (o : pyval) : option pyval :=
  d ← field o "Datastream"; field d "@iot.id".

(** The result of the time-series conversion when there is nothing to
    report: [{"Observations": []}]. *)
Definition no_observations : pyval := PyDict [("Observations", PyList [])].

(** The rows whose geometry cell is a shapely Point without
    coordinates. *)
Definition has_empty_point (r : row) : bool :=
  match row_get r "geometry" PyNone with
  | PyEmptyPoint => true
  | _ => false
  end.

(** The rows whose geometry cell is a shapely Point with coordinates. *)
Definition has_point (r : row) : bool :=
  match row_get r "geometry" PyNone with
  | PyPoint _ _ => true
  | _ => false
  end.

(** The Location of a row, when it has one. *)
Definition location_of (r : row) : option pyval :=
  match row_get r "geometry" PyNone with
  | PyPoint x y => Some (Latest.location_entity r x y)
  | _ => None
  end.

(** The timestamp text of a time-series entry: the first three
    statements of the loop body of TimeSeriesObservationBuilder.build. *)
Definition entry_time `{World} (entry : pyval) : result string :=
  let! date_observed := py_get entry "dateObserved" PyNone in
  let! ts := pd_to_datetime date_observed in
  isoformat ts.

(** A time-series entry as the data model has it: a JSON object whose
    dateObserved parses to a timestamp. *)
Definition well_formed_entry `{World} (entry : pyval) : Prop :=
  exists iso, entry_time entry = Return iso.

(** What the specification asks of one entry: a temperature Observation
    only if the temperature field is present, a humidity Observation
    only if relativeHumidity is present, both at the entry's time. *)
Definition expected_observations (station_id iso : string) (entry : pyval)
    : list pyval :=
  (if py_in "temperature" entry then
     [PyDict [
        ("Datastream", PyDict [("@iot.id", PyStr (station_id +:+ "-temperature"))]);
        ("phenomenonTime", PyStr iso);
        ("resultTime", PyStr iso);
        ("result", default PyNone (field entry "temperature"))]]
   else [])
  ++
  (if py_in "relativeHumidity" entry then
     [PyDict [
        ("Datastream", PyDict [("@iot.id", PyStr (station_id +:+ "-humidity"))]);
        ("phenomenonTime", PyStr iso);
        ("resultTime", PyStr iso);
        ("result", default PyNone (field entry "relativeHumidity"))]]
   else []).

(** What the loop appends for one entry, by the specification. *)
Definition entry_expected `{World} (station_id : string) (entry : pyval)
    : list pyval :=
  match entry_time entry with
  | Return iso => expected_observations station_id iso entry
  | Raise _ => []
  end.

(** ** A concrete world for the examples *)

Module Demo.

(** A pd.to_datetime that knows two samples; any other str is refused
    as pandas refuses a text that is no date, and None stays None. *)
Definition to_datetime (v : pyval) : result pyval :=
  match v with
  | PyNone => Return PyNone
  | PyStr s =>
      if String.eqb s "2024-11-02T10:00:00Z"
      then Return (PyTimestamp "2024-11-02T10:00:00+00:00")
      else if String.eqb s "2024-11-02T11:00:00Z"
      then Return (PyTimestamp "2024-11-02T11:00:00+00:00")
      else Raise (Exn ValueError
                    ("Unknown datetime string format, unable to parse: " +:+ s))
  | _ => Raise (Exn TypeError "cannot convert input to Timestamp")
  end.

Definition http_response (status : Z) (body : string) (parsed : result pyval)
    : response :=
  {| status_code := status; reason := ""; url := ""; content := body;
     text := body; json := parsed |}.

(** A world in which every request is answered by [r], the json decoder
    accepts every text as a feature collection, and geopandas turns it
    into the rows [df]. *)
Definition world (r : result response) (df : list row) : World :=
  {| requests_get := fun _ => r;
     json_loads := fun _ => Return (PyDict [("type", PyStr "FeatureCollection")]);
     from_features := fun _ _ => Return df;
     gpd_read_file := fun _ => Return df;
     pd_to_datetime := to_datetime;
     py_repr := fun _ => "?";
     empty_point_error := Exn (OtherException "IndexError") "index out of range" |}.

Definition station_row : row :=
  {[ "stationId" := PyStr "11117";
     "name" := PyStr "Bern Zytglogge";
     "outdated" := PyBool false;
     "measurementsPlausible" := PyBool true;
     "geometry" := PyPoint 7.4474%float 46.948%float;
     "dateObserved" := PyTimestamp "2024-11-01T00:00:00";
     "temperature" := PyFloat 21.5%float;
     "relativeHumidity" := PyInt 60 ]}.

(** A station whose geometry is a Point without coordinates. *)
Definition empty_point_row : row :=
  {[ "stationId" := PyStr "11120";
     "name" := PyStr "Bern Wankdorf";
     "outdated" := PyBool false;
     "measurementsPlausible" := PyBool true;
     "geometry" := PyEmptyPoint;
     "dateObserved" := PyTimestamp "2024-11-01T00:00:00";
     "temperature" := PyFloat 20.5%float;
     "relativeHumidity" := PyInt 64 ]}.

(** A row without geometry and without readings. *)
Definition bare_row : row :=
  {[ "stationId" := PyStr "11118";
     "name" := PyStr "Bern Bundesplatz";
     "dateObserved" := PyStr "2024-11-01 00:00:00" ]}.

Definition temperature_only : pyval :=
  PyDict [("dateObserved", PyStr "2024-11-02T10:00:00Z");
          ("temperature", PyFloat 18.2%float)].

Definition both_fields : pyval :=
  PyDict [("dateObserved", PyStr "2024-11-02T11:00:00Z");
          ("temperature", PyFloat 17.9%float);
          ("relativeHumidity", PyInt 71)].

Definition bad_date : pyval :=
  PyDict [("dateObserved", PyStr "not-a-date");
          ("temperature", PyFloat 17.5%float)].

End Demo.

(** ** Sample worlds *)

Module Samples.

(** The snapshot answered with two stations, the second without
    geometry and readings. *)
Definition snapshot_world : World :=
  Demo.world (Return (Demo.http_response 200 "{}" (Return (PyDict []))))
             [Demo.station_row; Demo.bare_row].

(** The time series answered with three samples, the second with a
    dateObserved that is no date. *)
Definition mixed_series : list pyval :=
  [Demo.temperature_only; Demo.bad_date; Demo.both_fields].

Definition mixed_world : World :=
  Demo.world (Return (Demo.http_response 200 "[...]"
                        (Return (PyList mixed_series)))) [].

(** The time series answered with two sound samples. *)
Definition sound_series : list pyval :=
  [Demo.temperature_only; Demo.both_fields].

Definition sound_world : World :=
  Demo.world (Return (Demo.http_response 200 "[...]"
                        (Return (PyList sound_series)))) [].

(** No request gets through. *)
Definition unreachable : exn :=
  Exn (OtherException "ConnectionError") "Max retries exceeded".

Definition unreachable_world : World := Demo.world (Raise unreachable) [].

(** The snapshot answered with two stations, the second with a Point
    without coordinates. *)
Definition empty_point_world : World :=
  Demo.world (Return (Demo.http_response 200 "{}" (Return (PyDict []))))
             [Demo.station_row; Demo.empty_point_row].

(** Every request answered with 304 Not Modified, without a body. *)
Definition not_modified_world : World :=
  Demo.world (Return (Demo.http_response 304 "" (Return PyNone))) [].

(** Every request answered with 404 Not Found. *)
Definition not_found_world : World :=
  Demo.world (Return (Demo.http_response 404 "Not Found"
                        (Raise (Exn JSONDecodeError "Expecting value"))))
             [].

Definition latest_converter : Latest.SensorThingsConverter :=
  Latest.SensorThingsConverter_init None.

Definition timeseries_converter : Timeseries.SensorThingsConverter :=
  Timeseries.SensorThingsConverter_init None.

Definition older_converter : Legacy.SensorThingsConverter :=
  {| Legacy.base_url := "https://smart-urban-heat-map.ch/api/v2" |}.

Definition parse_error : exn :=
  Exn ValueError "Unknown datetime string format, unable to parse: not-a-date".

End Samples.

(** ** flask_app.py *)

Module App.

(** [flask.jsonify]: the response body for a value, or the exception of
    the serialiser. *)
Class Flask : Type := { jsonify : pyval -> result pyval }.

(** [try: body except Exception as e: handler(e)] for code that does
    not print. *)
Definition result_try {A} (body : result A) (handler : exn -> result A)
    : result A :=
  match body with
  | Return a => Return a
  | Raise e => if is_Exception (exn_cls e) then handler e else Raise e
  end.

Section Routes.
Context `{World} `{Flask}.

(** hello_world, the view of [/] *)
Definition hello_world : string := "SensorThings API Wrapper is running!".

(** latest, the view of [/latest]: the body and the status. *)
Definition latest : result (pyval * Z) :=
  result_try
    (let converter := Latest.SensorThingsConverter_init None in
     let! data := Latest.convert converter in
     let! body := jsonify data in
     Return (body, 200))
    (fun e =>
       let! body := jsonify (PyDict [("error", PyStr (exn_str e))]) in
       Return (body, 500)).

(** timeseries, the view of [/timeseries]; [args] is [request.args]. *)
Definition timeseries (args : gmap string string) : io (pyval * Z) :=
  try_except
    (let station_id := args !! "stationId" in
     let time_from := args !! "timeFrom" in
     let time_to := args !! "timeTo" in
     if negb (opt_truthy station_id) then
       io! body := io_lift (jsonify (PyDict [
                     ("error", PyStr "stationId is required")])) in
       io_ret (body, 400)
     else
       let converter := Timeseries.SensorThingsConverter_init None in
       io! data := Timeseries.convert_timeseries converter
                     (default "" station_id) time_from time_to in
       io! body := io_lift (jsonify data) in
       io_ret (body, 200))
    is_Exception
    (fun e =>
       io! body := io_lift (jsonify (PyDict [
                     ("error", PyStr (exn_str e))])) in
       io_ret (body, 500)).
End Routes.

End App.

(** ** The save methods of the three converters *)

Module Saving.

(** [with open(filename, "w", ...) as f: json.dump(payload, f, ...)]:
    the files afterwards, and whether opening or dumping raised.  [FS]
    is the state of the file system; the flag is [ensure_ascii]. *)
Class FileIO (FS : Type) : Type := {
  write_json : string -> bool -> pyval -> FS -> FS * result unit
}.

Section Saving.
Context `{World} {FS : Type} `{FileIO FS}.

(** SensorThingsConverter.save_to_json of the snapshot facade *)
Definition Latest_save_to_json (self : Latest.SensorThingsConverter)
    (filename : string) (fs : FS) : FS * io unit :=
  match Latest.convert self with
  | Raise e => (fs, io_raise e)
  | Return payload =>
      let (fs, written) := write_json filename false payload fs in
      (fs,
       run! io_lift written in
       print ("SensorThings-Daten wurden erfolgreich in " +:+ filename
              +:+ " gespeichert."))
  end.

(** SensorThingsConverter.save_timeseries_to_json *)
Definition save_timeseries_to_json (self : Timeseries.SensorThingsConverter)
    (station_id filename : string) (time_from time_to : option string)
    (fs : FS) : FS * io unit :=
  let converted :=
    Timeseries.convert_timeseries self station_id time_from time_to in
  match outcome converted with
  | Raise e => (fs, IO (Raise e) (stdout converted))
  | Return payload =>
      let (fs, written) := write_json filename false payload fs in
      (fs,
       run! converted in
       run! io_lift written in
       print ("Zeitreihen-Daten für Station " +:+ station_id
              +:+ " wurden erfolgreich in " +:+ filename +:+ " gespeichert."))
  end.

(** SensorThingsConverter.save_to_json of the older converter *)
Definition Legacy_save_to_json (self : Legacy.SensorThingsConverter)
    (filename : string) (fs : FS) : FS * io unit :=
  let converted := Legacy.fetch_and_convert self in
  match outcome converted with
  | Raise e => (fs, IO (Raise e) (stdout converted))
  | Return sensorthings_data =>
      if from_option py_truthy false sensorthings_data then
        let (fs, written) :=
          write_json filename true (default PyNone sensorthings_data) fs in
        (fs,
         run! converted in
         run! io_lift written in
         print ("Data saved to " +:+ filename +:+ " successfully!"))
      else (fs, run! converted in io_ret tt)
  end.
End Saving.

End Saving.

(** ** More to state the properties with *)

(** The address that [fetch_timeseries] requests. *)
Definition timeseries_url (base_url station_id : string)
    (time_from time_to : option string) : string :=
  let url := base_url +:+ "/timeseries?stationId=" +:+ station_id in
  let url :=
    if opt_truthy time_from
    then url +:+ "&timeFrom=" +:+ default "" time_from else url in
  let url :=
    if opt_truthy time_to
    then url +:+ "&timeTo=" +:+ default "" time_to else url in
  url.

(** [isinstance(v, dict)] *)
Definition is_dict (v : pyval) : bool :=
  match v with
  | PyDict _ => true
  | _ => false
  end.

(** The line that [convert_timeseries] prints for a caught exception. *)
Definition error_line (station_id : string) (e : exn) : string :=
  "Fehler beim Abrufen der Zeitreihe für Station " +:+ station_id
  +:+ ": " +:+ exn_str e.

(** A body of white space only. *)
Definition all_whitespace (s : string) : Prop :=
  Forall (fun a => is_whitespace a = true) (String.list_ascii_of_string s).

(** The columns that the older converter reads with [row[...]]. *)
Definition columns : list string :=
  ["stationId"; "geometry"; "name"; "outdated"; "measurementsPlausible";
   "dateObserved"; "temperature"; "relativeHumidity"].

(** A row with all these columns and a Point with coordinates as
    geometry. *)
Definition complete_row (r : row) : Prop :=
  Forall (fun c => is_Some (r !! c)) columns /\ has_point r = true.

(** An object with an isoformat method that is no pandas Timestamp. *)
Definition is_other_datetime (v : pyval) : bool :=
  match v with
  | PyDatetime _ => true
  | _ => false
  end.

(** Things that differ in their description at most. *)
Definition same_but_description (t t' : pyval) : Prop :=
  forall k, k <> "description" -> field t k = field t' k.

(** The "@iot.id" of every entity of a list. *)
Definition ids (entities : list pyval) : list (option pyval) :=
  (fun e => field e "@iot.id") <$> entities.

(** The text that the builders print for the stationId of a row. *)
Definition station_text `{World} (r : row) : string :=
  py_str (row_get r "stationId" PyNone).

(** An Observation of the station [station_id]: it refers to one of the
    two Datastreams of the station, and its two times are one text. *)
Definition observation_of (station_id : string) (o : pyval) : Prop :=
  (datastream_ref o = Some (PyStr (station_id +:+ "-temperature")) \/
   datastream_ref o = Some (PyStr (station_id +:+ "-humidity"))) /\
  (exists iso, field o "phenomenonTime" = Some (PyStr iso) /\
               field o "resultTime" = Some (PyStr iso)).

(** ** More sample worlds *)

Module MoreSamples.

(** A serialiser that accepts every value. *)
Definition plain_flask : App.Flask := {| App.jsonify := fun v => Return v |}.

(** Files as a map from name to what was dumped; writing never fails. *)
Definition plain_files : Saving.FileIO (gmap string pyval) :=
  {| Saving.write_json := fun filename _ payload fs =>
       (<[filename := payload]> fs, Return tt) |}.

(** The snapshot answered with two complete stations. *)
Definition second_row : row :=
  <["stationId" := PyStr "11119"]>
    (<["geometry" := PyPoint 7.45%float 46.95%float]> Demo.station_row).

Definition complete_world : World :=
  Demo.world (Return (Demo.http_response 200 "{}" (Return (PyDict []))))
             [Demo.station_row; second_row].

(** The time series answered with an object that wraps the samples. *)
Definition wrapped_world : World :=
  Demo.world (Return (Demo.http_response 200 "{...}"
                        (Return (PyDict [("values", PyList Samples.sound_series)]))))
             [].

(** The time series answered with an error object. *)
Definition error_object_world : World :=
  Demo.world (Return (Demo.http_response 200 "{...}"
                        (Return (PyDict [("error", PyStr "unknown station")]))))
             [].

(** The time series answered with a JSON text. *)
Definition text_world : World :=
  Demo.world (Return (Demo.http_response 200 "..."
                        (Return (PyStr "maintenance"))))
             [].

(** The time series answered with a body that is no JSON. *)
Definition html_world : World :=
  Demo.world (Return (Demo.http_response 200 "<html>"
                        (Raise (Exn JSONDecodeError "Expecting value"))))
             [].

(** The time series answered with a line break and a blank. *)
Definition blank_world : World :=
  Demo.world (Return (Demo.http_response 200 (String (Ascii.ascii_of_nat 10) " ")
                        (Raise (Exn JSONDecodeError "Expecting value"))))
             [].

(** A json decoder that meets a feature collection with "crs": null. *)
Definition null_crs_world : World :=
  {| requests_get := fun _ => Return (Demo.http_response 200 "{}" (Return PyNone));
     json_loads := fun _ => Return (PyDict [("type", PyStr "FeatureCollection");
                                            ("crs", PyNone)]);
     from_features := fun _ _ => Return [];
     gpd_read_file := fun _ => Return [];
     pd_to_datetime := Demo.to_datetime;
     py_repr := fun _ => "?";
     empty_point_error := Exn (OtherException "IndexError") "index out of range" |}.

(** A json decoder that meets a feature collection with a named crs;
    geopandas answers with the crs it was given as the only cell. *)
Definition named_crs : pyval :=
  PyDict [("type", PyStr "FeatureCollection");
          ("crs", PyDict [("type", PyStr "name");
                          ("properties", PyDict [("name", PyStr "EPSG:4326")])])].

Definition named_crs_world : World :=
  {| requests_get := fun _ => Return (Demo.http_response 200 "{}" (Return PyNone));
     json_loads := fun _ => Return named_crs;
     from_features := fun _ crs => Return [ {[ "crs" := crs ]} ];
     gpd_read_file := fun _ => Return [];
     pd_to_datetime := Demo.to_datetime;
     py_repr := fun _ => "?";
     empty_point_error := Exn (OtherException "IndexError") "index out of range" |}.

End MoreSamples.

(** * Properties *)

(** ** Loops that append *)

Section AppendLoops.
Context {A B : Type}.

(** A loop that appends [f x] for every [x] builds the concatenation
    of the pieces, in the order of the input. *)
Lemma fold_left_append (f : A -> list B) (l : list A) (init : list B) :
  fold_left (fun acc x => acc ++ f x) l init = init ++ (l ≫= f).
Proof.
  revert init. induction l as [|x l IH]; intros init.
  - simpl. by rewrite app_nil_r.
  - rewrite bind_cons, app_assoc. apply IH.
Qed.

(** Two loops with the same body compute the same list. *)
Lemma fold_left_same_body (f g : list B -> A -> list B) (l : list A)
    (init : list B) :
  (forall acc x, f acc x = g acc x) ->
  fold_left f l init = fold_left g l init.
Proof.
  intros Hfg. revert init.
  induction l as [|x l IH]; intros init; [done|].
  simpl. rewrite Hfg. apply IH.
Qed.

Lemma bind_pair_length (f g : A -> B) (l : list A) :
  length (l ≫= fun x => [f x; g x]) = (2 * length l)%nat.
Proof.
  induction l as [|x l IH]; [done|].
  rewrite bind_cons, length_app, IH. simpl. lia.
Qed.

Lemma bind_pair_lookup (f g : A -> B) (l : list A) (i : nat) (x : A) :
  l !! i = Some x ->
  (l ≫= fun x => [f x; g x]) !! (2 * i)%nat = Some (f x) /\
  (l ≫= fun x => [f x; g x]) !! (2 * i + 1)%nat = Some (g x).
Proof.
  revert i. induction l as [|y l IH]; intros i Hi; [done|].
  rewrite bind_cons. destruct i as [|i]; simpl in Hi.
  - by simplify_eq.
  - replace (2 * S i)%nat with (S (S (2 * i))) by lia.
    replace (S (S (2 * i)) + 1)%nat with (S (S (2 * i + 1))) by lia.
    simpl. by apply IH.
Qed.
End AppendLoops.

(** ** The builders as maps over the rows *)

Section BuilderShapes.
Context `{World}.

Lemma ThingBuilder_build_map (df : list row) :
  Latest.ThingBuilder_build df = Latest.thing_entity <$> df.
Proof.
  unfold Latest.ThingBuilder_build.
  rewrite (fold_left_append (fun r => [Latest.thing_entity r])).
  rewrite app_nil_l.
  induction df as [|r df IH]; [done|]. by rewrite bind_cons, IH.
Qed.

(** What the loop appends for a row that is no Point without
    coordinates. *)
Lemma location_of_row (r : row) :
  has_empty_point r = false ->
  (is_Point (row_get r "geometry" PyNone) = false /\ location_of r = None) \/
  (exists x y, row_get r "geometry" PyNone = PyPoint x y /\
               location_of r = Some (Latest.location_entity r x y)).
Proof.
  unfold has_empty_point, location_of.
  destruct (row_get r "geometry" PyNone); try done; eauto.
Qed.

Lemma LocationBuilder_loop_returns (locations : list pyval) (df : list row) :
  Forall (fun r => has_empty_point r = false) df ->
  Latest.LocationBuilder_loop locations df
    = Return (locations ++ omap location_of df).
Proof.
  intros Hdf. revert locations.
  induction Hdf as [|r df Hr _ IH]; intros locations.
  - simpl. by rewrite app_nil_r.
  - change (omap location_of (r :: df)) with
      (match location_of r with
       | Some l => l :: omap location_of df
       | None => omap location_of df
       end).
    cbn [Latest.LocationBuilder_loop].
    destruct (location_of_row r Hr) as [[Hno ->]|(x & y & Hgeom & ->)].
    + rewrite Hno. cbn [negb]. apply IH.
    + rewrite Hgeom. cbn [is_Point negb point_x point_y rbind].
      by rewrite IH, <- app_assoc.
Qed.

(** Without a Point that lacks coordinates, LocationBuilder.build
    returns the Locations of the rows that have a Point, in row order. *)
Lemma LocationBuilder_build_omap (df : list row) :
  Forall (fun r => has_empty_point r = false) df ->
  Latest.LocationBuilder_build df = Return (omap location_of df).
Proof. intros Hdf. by apply (LocationBuilder_loop_returns []). Qed.

(** At the first Point without coordinates the loop ends with the
    exception of shapely. *)
Lemma LocationBuilder_loop_raises (locations : list pyval)
    (pre post : list row) (r : row) :
  Forall (fun r => has_empty_point r = false) pre ->
  has_empty_point r = true ->
  Latest.LocationBuilder_loop locations (pre ++ r :: post)
    = Raise empty_point_error.
Proof.
  intros Hpre Hr. revert locations.
  induction Hpre as [|r' pre Hr' _ IH]; intros locations.
  - cbn [app Latest.LocationBuilder_loop]. unfold has_empty_point in Hr.
    by destruct (row_get r "geometry" PyNone).
  - cbn [app Latest.LocationBuilder_loop].
    destruct (location_of_row r' Hr') as [[Hno _]|(x & y & Hgeom & _)].
    + rewrite Hno. cbn [negb]. apply IH.
    + rewrite Hgeom. cbn [is_Point negb point_x point_y rbind]. apply IH.
Qed.

Lemma LocationBuilder_loop_inv (locations locations' : list pyval)
    (df : list row) :
  Latest.LocationBuilder_loop locations df = Return locations' ->
  Forall (fun r => has_empty_point r = false) df.
Proof.
  revert locations. induction df as [|r df IH]; intros locations Hb;
    [constructor|].
  cbn [Latest.LocationBuilder_loop] in Hb.
  assert (has_empty_point r = false) as Hr.
  { unfold has_empty_point.
    destruct (row_get r "geometry" PyNone); try done. }
  constructor; [done|].
  destruct (location_of_row r Hr) as [[Hno _]|(x & y & Hgeom & _)].
  - rewrite Hno in Hb. exact (IH _ Hb).
  - rewrite Hgeom in Hb. exact (IH _ Hb).
Qed.

(** When LocationBuilder.build returns, no row has a Point without
    coordinates and the Locations are those of the rows with a Point. *)
Lemma LocationBuilder_build_inv (df : list row) (locations : list pyval) :
  Latest.LocationBuilder_build df = Return locations ->
  Forall (fun r => has_empty_point r = false) df /\
  locations = omap location_of df.
Proof.
  intros Hb. pose proof (LocationBuilder_loop_inv _ _ _ Hb) as Hdf.
  split; [done|]. rewrite LocationBuilder_build_omap in Hb by done.
  by injection Hb.
Qed.

(** The dictionary of a conversion that returned. *)
Lemma entities_inv (df : list row) (d : pyval) :
  Latest.entities df = Return d ->
  Forall (fun r => has_empty_point r = false) df /\
  d = PyDict [
    ("Things", PyList (Latest.ThingBuilder_build df));
    ("Locations", PyList (omap location_of df));
    ("Datastreams", PyList (Latest.DataStreamBuilder_build df));
    ("Observations", PyList (Latest.ObservationBuilder_build df))].
Proof.
  unfold Latest.entities. cbn zeta.
  destruct (Latest.LocationBuilder_build df) as [locations|] eqn:Hb;
    [|done].
  apply LocationBuilder_build_inv in Hb as [Hdf ->].
  by intros [= <-].
Qed.

Lemma entities_returns (df : list row) :
  Forall (fun r => has_empty_point r = false) df ->
  Latest.entities df = Return (PyDict [
    ("Things", PyList (Latest.ThingBuilder_build df));
    ("Locations", PyList (omap location_of df));
    ("Datastreams", PyList (Latest.DataStreamBuilder_build df));
    ("Observations", PyList (Latest.ObservationBuilder_build df))]).
Proof.
  intros Hdf. unfold Latest.entities. cbn zeta.
  by rewrite LocationBuilder_build_omap.
Qed.

Lemma DataStreamBuilder_build_bind (df : list row) :
  Latest.DataStreamBuilder_build df =
  df ≫= fun r => [Latest.temperature_datastream r; Latest.humidity_datastream r].
Proof.
  unfold Latest.DataStreamBuilder_build.
  rewrite <- (app_nil_l (df ≫= _)), <- fold_left_append.
  apply fold_left_same_body. intros acc r. by rewrite <- app_assoc.
Qed.

Lemma ObservationBuilder_build_bind (df : list row) :
  Latest.ObservationBuilder_build df =
  df ≫= fun r => [Latest.temperature_observation r; Latest.humidity_observation r].
Proof.
  unfold Latest.ObservationBuilder_build.
  rewrite <- (app_nil_l (df ≫= _)), <- fold_left_append.
  apply fold_left_same_body. intros acc r. by rewrite <- app_assoc.
Qed.
End BuilderShapes.

(** ** The snapshot builders *)

Section SnapshotBuilders.
Context `{World}.

(** C2. DataStreamBuilder.build makes exactly two Datastreams for
    every row, whatever the row holds: the output is twice as long as
    the row set, and the row [r] contributes, at its place, a
    Datastream with id "{stationId}-temperature" and one with id
    "{stationId}-humidity", each naming the Thing [stationId]. *)
Theorem DataStreamBuilder_build_two_per_row
    (df pre post : list row) (r : row) :
  let sid := row_get r "stationId" PyNone in
  let t := Latest.temperature_datastream r in
  let h := Latest.humidity_datastream r in
  length (Latest.DataStreamBuilder_build df) = (2 * length df)%nat /\
  Latest.DataStreamBuilder_build (pre ++ r :: post) =
    Latest.DataStreamBuilder_build pre ++ [t; h]
      ++ Latest.DataStreamBuilder_build post /\
  field t "@iot.id" = Some (PyStr (py_str sid +:+ "-temperature")) /\
  field t "Thing" = Some (PyDict [("@iot.id", sid)]) /\
  field h "@iot.id" = Some (PyStr (py_str sid +:+ "-humidity")) /\
  field h "Thing" = Some (PyDict [("@iot.id", sid)]).
Proof.
  intros sid t h. split; [|split; [|done]].
  - rewrite DataStreamBuilder_build_bind. apply bind_pair_length.
  - rewrite !DataStreamBuilder_build_bind.
    by rewrite bind_app, bind_cons.
Qed.

(** C3. The snapshot ObservationBuilder.build makes exactly two
    Observations for every row, also when a reading is absent (the
    result is then None): one refers to "{stationId}-temperature" and
    carries the row's temperature, one refers to
    "{stationId}-humidity" and carries relativeHumidity; in both,
    phenomenonTime and resultTime are the same text, isoformat() of
    dateObserved when it has that method and str(dateObserved)
    otherwise. *)
Theorem ObservationBuilder_build_two_per_row
    (df pre post : list row) (r : row) :
  let sid := row_get r "stationId" PyNone in
  let ts := row_get r "dateObserved" PyNone in
  let ts_iso :=
    match isoformat ts with
    | Return iso => iso
    | Raise _ => py_str ts
    end in
  let t := Latest.temperature_observation r in
  let h := Latest.humidity_observation r in
  length (Latest.ObservationBuilder_build df) = (2 * length df)%nat /\
  Latest.ObservationBuilder_build (pre ++ r :: post) =
    Latest.ObservationBuilder_build pre ++ [t; h]
      ++ Latest.ObservationBuilder_build post /\
  datastream_ref t = Some (PyStr (py_str sid +:+ "-temperature")) /\
  datastream_ref h = Some (PyStr (py_str sid +:+ "-humidity")) /\
  field t "phenomenonTime" = Some (PyStr ts_iso) /\
  field t "resultTime" = Some (PyStr ts_iso) /\
  field h "phenomenonTime" = Some (PyStr ts_iso) /\
  field h "resultTime" = Some (PyStr ts_iso) /\
  field t "result" = Some (default PyNone (r !! "temperature")) /\
  field h "result" = Some (default PyNone (r !! "relativeHumidity")).
Proof.
  intros sid ts ts_iso t h. split; [|split].
  - rewrite ObservationBuilder_build_bind. apply bind_pair_length.
  - rewrite !ObservationBuilder_build_bind.
    by rewrite bind_app, bind_cons.
  - assert (Latest.ts_iso_of ts = ts_iso) as Hts
      by (unfold ts_iso; by destruct ts).
    subst t h. unfold Latest.temperature_observation,
      Latest.humidity_observation. fold sid ts. rewrite Hts.
    unfold row_get. by repeat split.
Qed.

(** X27. On a row set without a Point that lacks coordinates,
    ThingBuilder.build makes one Thing for every row and
    LocationBuilder.build returns one Location for a row exactly when
    its geometry is a Point, passing over every other row without an
    error: as many Locations as rows with a Point, and a row without
    one still has its Thing. *)
Theorem LocationBuilder_build_only_points
    (df pre post : list row) (r : row) :
  Forall (fun r => has_empty_point r = false) df ->
  Forall (fun r => has_empty_point r = false) (pre ++ r :: post) ->
  length (Latest.ThingBuilder_build df) = length df /\
  Latest.ThingBuilder_build (pre ++ r :: post) =
    Latest.ThingBuilder_build pre ++ [Latest.thing_entity r]
      ++ Latest.ThingBuilder_build post /\
  exists locations locations_pre locations_post,
    Latest.LocationBuilder_build df = Return locations /\
    length locations = length (List.filter has_point df) /\
    Latest.LocationBuilder_build pre = Return locations_pre /\
    Latest.LocationBuilder_build post = Return locations_post /\
    Latest.LocationBuilder_build (pre ++ r :: post) =
      Return (locations_pre
              ++ match row_get r "geometry" PyNone with
                 | PyPoint x y => [Latest.location_entity r x y]
                 | _ => []
                 end
              ++ locations_post).
Proof.
  intros Hdf Hall.
  pose proof Hall as [Hpre [Hr Hpost]%Forall_cons]%Forall_app.
  rewrite !ThingBuilder_build_map.
  split; [by rewrite length_fmap|]. split; [by rewrite fmap_app|].
  exists (omap location_of df), (omap location_of pre),
    (omap location_of post).
  rewrite !LocationBuilder_build_omap by done.
  split; [done|]. split; [|split; [done|split; [done|]]].
  - clear Hdf. induction df as [|r' df IH]; [done|].
    assert (location_of r' = None /\ has_point r' = false \/
            exists l, location_of r' = Some l /\ has_point r' = true)
      as Hcase.
    { unfold location_of, has_point.
      destruct (row_get r' "geometry" PyNone); eauto. }
    change (omap location_of (r' :: df)) with
      (match location_of r' with
       | Some l => l :: omap location_of df
       | None => omap location_of df
       end).
    change (List.filter has_point (r' :: df)) with
      (if has_point r' then r' :: List.filter has_point df
       else List.filter has_point df).
    destruct Hcase as [[-> ->]|(l & -> & ->)]; simpl; by rewrite IH.
  - rewrite omap_app. do 2 f_equal. simpl. unfold location_of.
    by destruct (row_get r "geometry" PyNone).
Qed.


(** The Datastream ids of a row set. *)
Lemma datastream_ids_of_row (df : list row) (r : row) :
  r ∈ df ->
  Latest.temperature_datastream r ∈ Latest.DataStreamBuilder_build df /\
  Latest.humidity_datastream r ∈ Latest.DataStreamBuilder_build df.
Proof.
  intros Hr. rewrite DataStreamBuilder_build_bind.
  split; apply list_elem_of_bind; exists r; set_solver.
Qed.

Lemma observation_references_datastream (df : list row) (o : pyval) :
  o ∈ Latest.ObservationBuilder_build df ->
  exists ds id,
    ds ∈ Latest.DataStreamBuilder_build df /\
    datastream_ref o = Some id /\ field ds "@iot.id" = Some id.
Proof.
  rewrite ObservationBuilder_build_bind.
  intros (r & Ho & Hr)%list_elem_of_bind.
  destruct (datastream_ids_of_row df r Hr) as [Ht Hh].
  apply elem_of_cons in Ho as [->|Ho];
    [|apply elem_of_cons in Ho as [->|Ho]; [|by apply elem_of_nil in Ho]].
  - by exists (Latest.temperature_datastream r), (PyStr
      (py_str (row_get r "stationId" PyNone) +:+ "-temperature")).
  - by exists (Latest.humidity_datastream r), (PyStr
      (py_str (row_get r "stationId" PyNone) +:+ "-humidity")).
Qed.

(** C9. In the dictionary that the snapshot conversion assembles from
    the four builders on one row set, the Datastream that an
    Observation refers to is the "@iot.id" of a Datastream of the
    same dictionary; this holds of the two builders on every row set,
    and every result of [convert] is such a dictionary. *)
Theorem observations_reference_own_datastreams
    (df : list row) (self : Latest.SensorThingsConverter) (d : pyval) :
  (forall o, o ∈ Latest.ObservationBuilder_build df ->
     exists ds id,
       ds ∈ Latest.DataStreamBuilder_build df /\
       datastream_ref o = Some id /\
       field ds "@iot.id" = Some id) /\
  (forall d', Latest.entities df = Return d' ->
     forall o, o ∈ collection d' "Observations" ->
       exists ds id,
         ds ∈ collection d' "Datastreams" /\
         datastream_ref o = Some id /\
         field ds "@iot.id" = Some id) /\
  (Latest.convert self = Return d ->
   exists rows, Latest.entities rows = Return d).
Proof.
  split; [apply observation_references_datastream|]. split.
  - intros d' [_ ->]%entities_inv. apply observation_references_datastream.
  - unfold Latest.convert. intros Hc.
    destruct (Latest.fetch_latest _) as [raw|]; [simpl in Hc|done].
    destruct (Latest.GeoDataLoader_load raw) as [rows|]; [simpl in Hc|done].
    by exists rows.
Qed.
End SnapshotBuilders.

(** ** The time-series builder *)

Section TimeseriesBuilder.
Context `{World}.

Lemma datastream_names_differ (station_id : string) :
  station_id +:+ "-temperature" <> station_id +:+ "-humidity".
Proof.
  induction station_id as [|a s IH]; simpl; [done|].
  intros Heq. apply IH. by injection Heq.
Qed.

Lemma expected_temperature (station_id iso : string) (entry : pyval) :
  (exists o, o ∈ expected_observations station_id iso entry /\
     datastream_ref o = Some (PyStr (station_id +:+ "-temperature")))
  <-> py_in "temperature" entry = true.
Proof.
  pose proof (datastream_names_differ station_id) as Hne.
  unfold expected_observations. split.
  - intros (o & Ho & Href).
    destruct (py_in "temperature" entry); [done|]. exfalso.
    destruct (py_in "relativeHumidity" entry); simpl in Ho.
    + apply list_elem_of_singleton in Ho as ->.
      unfold datastream_ref in Href. simpl in Href. congruence.
    + by apply elem_of_nil in Ho.
  - intros ->. eexists. split.
    + apply elem_of_app. left. by apply list_elem_of_singleton.
    + reflexivity.
Qed.

Lemma expected_humidity (station_id iso : string) (entry : pyval) :
  (exists o, o ∈ expected_observations station_id iso entry /\
     datastream_ref o = Some (PyStr (station_id +:+ "-humidity")))
  <-> py_in "relativeHumidity" entry = true.
Proof.
  pose proof (datastream_names_differ station_id) as Hne.
  unfold expected_observations. split.
  - intros (o & Ho & Href).
    destruct (py_in "relativeHumidity" entry); [done|]. exfalso.
    rewrite app_nil_r in Ho.
    destruct (py_in "temperature" entry); simpl in Ho.
    + apply list_elem_of_singleton in Ho as ->.
      unfold datastream_ref in Href. simpl in Href. congruence.
    + by apply elem_of_nil in Ho.
  - intros ->. eexists. split.
    + apply elem_of_app. right. by apply list_elem_of_singleton.
    + reflexivity.
Qed.

(** The loop body on a well-formed entry does what the specification
    asks. *)
Lemma build_entry_well_formed (station_id iso : string)
    (observations : list pyval) (entry : pyval) :
  entry_time entry = Return iso ->
  Timeseries.build_entry station_id observations entry
    = Return (observations ++ expected_observations station_id iso entry).
Proof.
  unfold entry_time, Timeseries.build_entry, expected_observations.
  destruct entry as [| | | | | |d| | | | |]; try done. simpl.
  destruct (pd_to_datetime _) as [ts|]; [simpl|done].
  destruct (isoformat ts) as [iso'|]; [simpl|done].
  intros [= ->].
  destruct (dict_get "temperature" d) as [t|];
    destruct (dict_get "relativeHumidity" d) as [h|]; simpl;
    by rewrite <- ?app_assoc, ?app_nil_r.
Qed.

(** The loop body raises whatever reading the time of the entry
    raises. *)
Lemma build_entry_bad_time (station_id : string)
    (observations : list pyval) (entry : pyval) (e : exn) :
  entry_time entry = Raise e ->
  Timeseries.build_entry station_id observations entry = Raise e.
Proof.
  unfold entry_time, Timeseries.build_entry.
  destruct (py_get entry "dateObserved" PyNone) as [d|]; simpl;
    [|by intros [= ->]].
  destruct (pd_to_datetime d) as [ts|]; simpl; [|by intros [= ->]].
  destruct (isoformat ts) as [iso|]; simpl; [done|by intros [= ->]].
Qed.

Lemma build_loop_app (station_id : string) (observations : list pyval)
    (l1 l2 : list pyval) :
  Timeseries.build_loop station_id observations (l1 ++ l2) =
  let! observations := Timeseries.build_loop station_id observations l1 in
  Timeseries.build_loop station_id observations l2.
Proof.
  revert observations. induction l1 as [|x l1 IH]; intros acc; [done|].
  simpl. destruct (Timeseries.build_entry station_id acc x); [simpl|done].
  apply IH.
Qed.

Lemma build_loop_well_formed (station_id : string)
    (observations entries : list pyval) :
  Forall well_formed_entry entries ->
  Timeseries.build_loop station_id observations entries
    = Return (observations ++ (entries ≫= entry_expected station_id)).
Proof.
  intros Hwf. revert observations.
  induction Hwf as [|x l [iso Hx] _ IH]; intros acc.
  - simpl. by rewrite app_nil_r.
  - cbn [Timeseries.build_loop].
    rewrite (build_entry_well_formed _ iso) by done. cbn [rbind].
    rewrite IH, bind_cons, app_assoc. do 2 f_equal.
    unfold entry_expected. by rewrite Hx.
Qed.

(** On a list of well-formed entries the builder returns, and returns
    the expected observations of the entries one after the other. *)
Lemma build_well_formed (station_id : string) (entries : list pyval) :
  Forall well_formed_entry entries ->
  Timeseries.TimeSeriesObservationBuilder_build station_id (PyList entries)
    = Return (entries ≫= entry_expected station_id).
Proof.
  intros Hwf. unfold Timeseries.TimeSeriesObservationBuilder_build. simpl.
  by rewrite build_loop_well_formed.
Qed.

(** The loop stops at the first entry whose time cannot be read. *)
Lemma build_first_bad_entry (station_id : string)
    (pre post : list pyval) (bad : pyval) (e : exn) :
  Forall well_formed_entry pre ->
  entry_time bad = Raise e ->
  Timeseries.TimeSeriesObservationBuilder_build station_id
    (PyList (pre ++ bad :: post)) = Raise e.
Proof.
  intros Hpre Hbad.
  unfold Timeseries.TimeSeriesObservationBuilder_build. simpl.
  rewrite build_loop_app, build_loop_well_formed by done. simpl.
  by rewrite (build_entry_bad_time _ _ _ e).
Qed.

(** C4, as the code has it. For an entry of a time-series list in
    which every entry has a dateObserved that parses, the builder
    emits a temperature Observation exactly when the entry has a
    "temperature" field and a humidity Observation exactly when it
    has a "relativeHumidity" field; an entry with only a temperature
    yields exactly one Observation. *)
Theorem TimeSeriesObservationBuilder_build_per_field
    (station_id : string) (pre post : list pyval) (entry : pyval) :
  Forall well_formed_entry (pre ++ entry :: post) ->
  exists iso obs_pre obs_post,
    let emitted := expected_observations station_id iso entry in
    entry_time entry = Return iso /\
    Timeseries.TimeSeriesObservationBuilder_build station_id (PyList pre)
      = Return obs_pre /\
    Timeseries.TimeSeriesObservationBuilder_build station_id (PyList post)
      = Return obs_post /\
    Timeseries.TimeSeriesObservationBuilder_build station_id
      (PyList (pre ++ entry :: post))
      = Return (obs_pre ++ emitted ++ obs_post) /\
    Timeseries.TimeSeriesObservationBuilder_build station_id (PyList [entry])
      = Return emitted /\
    ((exists o, o ∈ emitted /\
        datastream_ref o = Some (PyStr (station_id +:+ "-temperature")))
     <-> py_in "temperature" entry = true) /\
    ((exists o, o ∈ emitted /\
        datastream_ref o = Some (PyStr (station_id +:+ "-humidity")))
     <-> py_in "relativeHumidity" entry = true) /\
    length emitted =
      ((if py_in "temperature" entry then 1 else 0)
       + (if py_in "relativeHumidity" entry then 1 else 0))%nat.
Proof.
  intros Hwf.
  pose proof Hwf as [Hpre [[iso Hiso] Hpost]%Forall_cons]%Forall_app.
  exists iso, (pre ≫= entry_expected station_id),
    (post ≫= entry_expected station_id).
  assert (entry_expected station_id entry
          = expected_observations station_id iso entry) as Hexp
    by (unfold entry_expected; by rewrite Hiso).
  pose proof (datastream_names_differ station_id) as Hne.
  split; [done|]. split; [by apply build_well_formed|].
  split; [by apply build_well_formed|].
  split; [by rewrite build_well_formed, bind_app, bind_cons, Hexp|].
  split.
  { rewrite build_well_formed by (repeat constructor; by exists iso).
    by rewrite bind_cons, Hexp, app_nil_r. }
  split; [apply expected_temperature|].
  split; [apply expected_humidity|].
  unfold expected_observations.
  by destruct (py_in "temperature" entry), (py_in "relativeHumidity" entry).
Qed.
End TimeseriesBuilder.

(** ** Outcomes of printing computations *)

Section Outcomes.
Context {A B : Type}.

Lemma outcome_io_bind (m : io A) (k : A -> io B) :
  outcome (io_bind m k) =
  match outcome m with
  | Return a => outcome (k a)
  | Raise e => Raise e
  end.
Proof. unfold io_bind. by destruct (outcome m). Qed.

(** [except Exception] lets no modelled exception through. *)
Lemma outcome_try_except_Exception (body : io A) (handler : exn -> io A) :
  outcome (try_except body is_Exception handler) =
  match outcome body with
  | Return a => Return a
  | Raise e => outcome (handler e)
  end.
Proof. unfold try_except. by destruct (outcome body) eqn:Hb. Qed.
End Outcomes.

Lemma io_bind_return {A B} (a : A) (k : A -> io B) :
  io_bind (io_lift (Return a)) k = k a.
Proof. unfold io_bind. simpl. by destruct (k a). Qed.

Lemma io_bind_raise {A B} (e : exn) (k : A -> io B) :
  io_bind (io_lift (Raise e)) k = IO (Raise e) [].
Proof. reflexivity. Qed.

Lemma str_truthy_nonempty (s : string) : s <> "" -> str_truthy s = true.
Proof. intros Hs. unfold str_truthy. by destruct s. Qed.

(** ** The time-series facade *)

Section TimeseriesFacade.
Context `{World}.

(** The outcome of [convert_timeseries] for a station id that is not
    empty, by what the fetch and the builder do. *)
Lemma convert_timeseries_outcome (self : Timeseries.SensorThingsConverter)
    (station_id : string) (time_from time_to : option string) :
  station_id <> "" ->
  outcome (Timeseries.convert_timeseries self station_id time_from time_to) =
  match outcome (Timeseries.fetch_timeseries (Timeseries.client self)
                   station_id time_from time_to) with
  | Raise _ => Return no_observations
  | Return ts_data =>
      let values := Timeseries.timeseries_values ts_data in
      if py_truthy values then
        match Timeseries.TimeSeriesObservationBuilder_build station_id values with
        | Return observations =>
            Return (PyDict [("Observations", PyList observations)])
        | Raise _ => Return no_observations
        end
      else Return no_observations
  end.
Proof.
  intros Hsid. unfold Timeseries.convert_timeseries.
  rewrite (str_truthy_nonempty _ Hsid). cbn [negb].
  rewrite outcome_try_except_Exception, outcome_io_bind.
  destruct (outcome (Timeseries.fetch_timeseries _ _ _ _)) as [ts_data|e];
    [|done].
  cbn zeta. destruct (py_truthy (Timeseries.timeseries_values ts_data));
    cbn [negb]; [|done].
  rewrite outcome_io_bind. cbn [io_lift outcome].
  by destruct (Timeseries.TimeSeriesObservationBuilder_build _ _).
Qed.

(** An answer without content is an empty result of the fetch:
    status 204, or a body of white space only. *)
Lemma fetch_timeseries_no_content (self : Timeseries.SmartUrbanHeatMapClient)
    (station_id : string) (time_from time_to : option string)
    (r : response) :
  (forall url, requests_get url = Return r) ->
  status_code r = 204 \/ strip (content r) = "" ->
  Timeseries.fetch_timeseries self station_id time_from time_to
    = IO (Return (PyList [])) [].
Proof.
  intros Hget Hempty. unfold Timeseries.fetch_timeseries.
  rewrite Hget. unfold io_bind. cbn [io_lift outcome stdout].
  destruct Hempty as [->| ->]; [done|].
  by destruct (status_code r =? 204).
Qed.

(** A body that is no JSON is an empty result too, with a warning. *)
Lemma fetch_timeseries_invalid_json (self : Timeseries.SmartUrbanHeatMapClient)
    (station_id : string) (time_from time_to : option string)
    (r : response) (msg : string) :
  (forall url, requests_get url = Return r) ->
  json r = Raise (Exn JSONDecodeError msg) ->
  outcome (Timeseries.fetch_timeseries self station_id time_from time_to)
    = Return (PyList []).
Proof.
  intros Hget Hjson. unfold Timeseries.fetch_timeseries.
  rewrite Hget. unfold io_bind. cbn [io_lift outcome stdout].
  destruct (_ || _); [done|]. unfold try_except. by rewrite Hjson.
Qed.

(** C1. For a station id that is not empty, [convert_timeseries]
    never raises: it returns a dictionary; an empty upstream result
    gives [{"Observations": []}], and so does every exception raised
    by the fetch or by the builder. *)
Theorem convert_timeseries_degrades (self : Timeseries.SensorThingsConverter)
    (station_id : string) (time_from time_to : option string) :
  station_id <> "" ->
  let run :=
    Timeseries.convert_timeseries self station_id time_from time_to in
  let fetched :=
    outcome (Timeseries.fetch_timeseries (Timeseries.client self)
               station_id time_from time_to) in
  (exists d, outcome run = Return d) /\
  (forall e, fetched = Raise e -> outcome run = Return no_observations) /\
  (forall ts_data,
     fetched = Return ts_data ->
     py_truthy (Timeseries.timeseries_values ts_data) = false ->
     outcome run = Return no_observations) /\
  (forall ts_data e,
     fetched = Return ts_data ->
     Timeseries.TimeSeriesObservationBuilder_build station_id
       (Timeseries.timeseries_values ts_data) = Raise e ->
     outcome run = Return no_observations).
Proof.
  intros Hsid run fetched. subst run fetched.
  rewrite convert_timeseries_outcome by done.
  split; [|split; [|split]].
  - destruct (outcome (Timeseries.fetch_timeseries _ _ _ _)) as [ts_data|e];
      [|by eexists].
    cbn zeta. destruct (py_truthy _); [|by eexists].
    destruct (Timeseries.TimeSeriesObservationBuilder_build _ _); by eexists.
  - by intros e ->.
  - intros ts_data -> Hempty. cbn zeta. by rewrite Hempty.
  - intros ts_data e -> Hb. cbn zeta. rewrite Hb. by destruct (py_truthy _).
Qed.

(** C6. With an empty station id [convert_timeseries] raises
    ValueError, whatever the time range: the check comes before the
    try block, so the error reaches the caller, nothing is printed
    and no request is made. *)
Theorem convert_timeseries_empty_station
    (self : Timeseries.SensorThingsConverter)
    (time_from time_to : option string) :
  Timeseries.convert_timeseries self "" time_from time_to
    = IO (Raise (Exn ValueError
                   "Bitte gib eine gültige stationId mit --stationId an."))
         [].
Proof. reflexivity. Qed.

(** C7, as the code has it. An entry whose dateObserved cannot be
    read makes the builder raise for the whole list, at the first
    such entry, and [convert_timeseries] then returns
    [{"Observations": []}]: no entry of that list yields an
    Observation.  A list whose entries all have a readable
    dateObserved yields the Observations of all its entries. *)
Theorem build_fails_for_the_whole_list
    (self : Timeseries.SensorThingsConverter) (station_id : string)
    (time_from time_to : option string)
    (ts_data : pyval) (pre post : list pyval) (bad : pyval) (e : exn) :
  station_id <> "" ->
  outcome (Timeseries.fetch_timeseries (Timeseries.client self)
             station_id time_from time_to) = Return ts_data ->
  Timeseries.timeseries_values ts_data = PyList (pre ++ bad :: post) ->
  Forall well_formed_entry pre ->
  entry_time bad = Raise e ->
  Timeseries.TimeSeriesObservationBuilder_build station_id
    (PyList (pre ++ bad :: post)) = Raise e /\
  outcome (Timeseries.convert_timeseries self station_id time_from time_to)
    = Return no_observations /\
  (forall entries, Forall well_formed_entry entries ->
     Timeseries.TimeSeriesObservationBuilder_build station_id (PyList entries)
       = Return (entries ≫= entry_expected station_id)).
Proof.
  intros Hsid Hfetch Hvalues Hpre Hbad.
  pose proof (build_first_bad_entry station_id pre post bad e Hpre Hbad)
    as Hbuild.
  split; [done|]. split; [|apply build_well_formed].
  rewrite convert_timeseries_outcome, Hfetch by done. cbn zeta.
  rewrite Hvalues, Hbuild. by destruct (py_truthy _).
Qed.
End TimeseriesFacade.

(** ** The snapshot facades *)

Section SnapshotFacade.
Context `{World}.

(** [raise_for_status] raises exactly on the statuses 400 to 599. *)
Lemma raise_for_status_error (r : response) :
  400 <= status_code r < 600 ->
  exists msg, raise_for_status r = Raise (Exn HTTPError msg).
Proof.
  intros Hs. unfold raise_for_status.
  destruct (decide (status_code r < 500)) as [Hlt|Hge].
  - rewrite (proj2 (Z.leb_le _ _)), (proj2 (Z.ltb_lt _ _)) by lia.
    by eexists.
  - rewrite (proj2 (Z.ltb_ge _ _)), andb_false_r by lia.
    rewrite (proj2 (Z.leb_le _ _)), (proj2 (Z.ltb_lt _ _)) by lia.
    by eexists.
Qed.

Lemma raise_for_status_ok (r : response) :
  status_code r < 400 \/ 600 <= status_code r ->
  raise_for_status r = Return tt.
Proof.
  intros Hs. unfold raise_for_status.
  destruct Hs as [Hs|Hs].
  - by rewrite !(proj2 (Z.leb_gt _ _)) by lia.
  - by rewrite !(proj2 (Z.ltb_ge _ _)), !andb_false_r by lia.
Qed.

(** C8, as the code has it. The facade of
    latest/SensorThingsConverter_Latest.py fails fast: [fetch_latest]
    raises HTTPError on every status from 400 to 599 and returns the
    body on every other status, and an exception of the request, of
    the status check, of the loader or of a builder leaves [convert]
    as it was raised.  The older converter of SensorThingsConverter.py
    does not fail on a status: on every status other than 200 its
    [fetch_latest] prints a line and returns None, and
    [fetch_and_convert] returns None; an exception of the request, of
    [gpd.read_file] or of the conversion of the rows leaves it. *)
Theorem snapshot_fetch_failures
    (self : Latest.SensorThingsConverter)
    (older : Legacy.SensorThingsConverter) :
  let url := Latest.base_url (Latest.client self) +:+ "/latest" in
  let older_url := Legacy.base_url older +:+ "/latest" in
  (forall e, requests_get url = Raise e ->
     Latest.fetch_latest (Latest.client self) = Raise e /\
     Latest.convert self = Raise e) /\
  (forall r, requests_get url = Return r ->
     400 <= status_code r < 600 ->
     exists msg,
       Latest.fetch_latest (Latest.client self) = Raise (Exn HTTPError msg) /\
       Latest.convert self = Raise (Exn HTTPError msg)) /\
  (forall r, requests_get url = Return r ->
     status_code r < 400 \/ 600 <= status_code r ->
     Latest.fetch_latest (Latest.client self) = Return (text r)) /\
  (forall raw e,
     Latest.fetch_latest (Latest.client self) = Return raw ->
     Latest.GeoDataLoader_load raw = Raise e ->
     Latest.convert self = Raise e) /\
  (forall raw df e,
     Latest.fetch_latest (Latest.client self) = Return raw ->
     Latest.GeoDataLoader_load raw = Return df ->
     Latest.LocationBuilder_build df = Raise e ->
     Latest.convert self = Raise e) /\
  (forall r, requests_get older_url = Return r ->
     status_code r <> 200 ->
     Legacy.fetch_latest older
       = IO (Return None)
            ["Error: Request failed with status code "
             +:+ pretty (status_code r)] /\
     Legacy.fetch_and_convert older
       = IO (Return None)
            ["Error: Request failed with status code "
             +:+ pretty (status_code r)]) /\
  (forall e, requests_get older_url = Raise e ->
     Legacy.fetch_and_convert older = IO (Raise e) []) /\
  (forall r e, requests_get older_url = Return r ->
     status_code r = 200 ->
     gpd_read_file (text r) = Raise e ->
     Legacy.fetch_and_convert older = IO (Raise e) []) /\
  (forall r data e, requests_get older_url = Return r ->
     status_code r = 200 ->
     gpd_read_file (text r) = Return data ->
     Legacy.convert_rows
       {| Legacy.things := []; Legacy.locations := [];
          Legacy.datastreams := []; Legacy.observations := [] |} data
       = Raise e ->
     Legacy.fetch_and_convert older = IO (Raise e) []).
Proof.
  intros url older_url. subst url older_url.
  unfold Latest.convert, Latest.fetch_latest, Legacy.fetch_and_convert,
    Legacy.fetch_latest.
  split; [|split; [|split; [|split; [|split; [|split; [|split; [|split]]]]]]].
  - intros e Hget. by rewrite Hget.
  - intros r Hget Hs.
    destruct (raise_for_status_error r Hs) as [msg Hmsg].
    exists msg. by rewrite Hget; cbn [rbind]; rewrite Hmsg.
  - intros r Hget Hs. rewrite Hget. cbn [rbind].
    by rewrite (raise_for_status_ok r Hs).
  - intros raw e -> Hload. cbn [rbind]. by rewrite Hload.
  - intros raw df e -> Hload Hloc. cbn [rbind]. rewrite Hload. cbn [rbind].
    unfold Latest.entities. cbn zeta. by rewrite Hloc.
  - intros r Hget Hs.
    rewrite Hget, io_bind_return, (proj2 (Z.eqb_neq _ _) Hs).
    by cbn.
  - intros e Hget. by rewrite Hget.
  - intros r e Hget Hs Hread.
    rewrite Hget, io_bind_return, Hs. cbn [Z.eqb Pos.eqb].
    by rewrite Hread.
  - intros r data e Hget Hs Hread Hrows.
    rewrite Hget, io_bind_return, Hs. cbn [Z.eqb Pos.eqb].
    rewrite Hread, io_bind_return. unfold io_bind at 1.
    cbn [io_ret outcome stdout app].
    unfold Legacy.convert_to_sensorthings. by rewrite Hrows.
Qed.
End SnapshotFacade.

(** * The properties at work on samples *)

Import Samples.

(** The row of the specification's example: two Observations, for
    11117-temperature and 11117-humidity, both at 2024-11-01T00:00:00,
    with the results 21.5 and 60. *)
Example ObservationBuilder_build_station_row :
  @Latest.ObservationBuilder_build snapshot_world [Demo.station_row] =
  [ PyDict [("Datastream", PyDict [("@iot.id", PyStr "11117-temperature")]);
            ("phenomenonTime", PyStr "2024-11-01T00:00:00");
            ("resultTime", PyStr "2024-11-01T00:00:00");
            ("result", PyFloat 21.5%float)];
    PyDict [("Datastream", PyDict [("@iot.id", PyStr "11117-humidity")]);
            ("phenomenonTime", PyStr "2024-11-01T00:00:00");
            ("resultTime", PyStr "2024-11-01T00:00:00");
            ("result", PyInt 60)] ].
Proof. vm_compute. reflexivity. Qed.

(** A row without readings still gets its two Observations, with the
    result None, and no Location. *)
Example builders_on_bare_row :
  @Latest.ObservationBuilder_build snapshot_world [Demo.bare_row] =
  [ PyDict [("Datastream", PyDict [("@iot.id", PyStr "11118-temperature")]);
            ("phenomenonTime", PyStr "2024-11-01 00:00:00");
            ("resultTime", PyStr "2024-11-01 00:00:00");
            ("result", PyNone)];
    PyDict [("Datastream", PyDict [("@iot.id", PyStr "11118-humidity")]);
            ("phenomenonTime", PyStr "2024-11-01 00:00:00");
            ("resultTime", PyStr "2024-11-01 00:00:00");
            ("result", PyNone)] ] /\
  @Latest.LocationBuilder_build snapshot_world [Demo.bare_row] = Return [] /\
  length (Latest.ThingBuilder_build [Demo.bare_row]) = 1%nat.
Proof. vm_compute. done. Qed.

(** The entry of the specification's example, with a temperature and no
    humidity: one Observation. *)
Example build_temperature_only :
  @Timeseries.TimeSeriesObservationBuilder_build sound_world "11117"
    (PyList [Demo.temperature_only]) =
  Return [ PyDict [
    ("Datastream", PyDict [("@iot.id", PyStr "11117-temperature")]);
    ("phenomenonTime", PyStr "2024-11-02T10:00:00+00:00");
    ("resultTime", PyStr "2024-11-02T10:00:00+00:00");
    ("result", PyFloat 18.2%float)] ].
Proof. vm_compute. reflexivity. Qed.

(** An empty upstream answer is no error. *)
Example convert_timeseries_no_content :
  @Timeseries.convert_timeseries
    (Demo.world (Return (Demo.http_response 204 "" (Return PyNone))) [])
    timeseries_converter "11117" None None
  = IO (Return no_observations) ["Keine Zeitreihen-Daten für Station 11117"].
Proof. vm_compute. reflexivity. Qed.

(** A status that [raise_for_status] lets pass is no failure of
    [fetch_latest], also when it is not 200. *)
Example fetch_latest_not_modified :
  @Latest.fetch_latest
    (Demo.world (Return (Demo.http_response 304 "" (Return PyNone))) [])
    (Latest.client latest_converter)
  = Return "".
Proof. vm_compute. reflexivity. Qed.

(** ** The theorems applied to the samples *)

(** A station that cannot be reached, and a series with a bad entry:
    both end in [{"Observations": []}]. *)
Lemma convert_timeseries_degrades_witness :
  "11117" <> "" /\
  outcome (@Timeseries.convert_timeseries unreachable_world
             timeseries_converter "11117" None (Some "2024-11-05T00:00:00Z"))
    = Return no_observations /\
  outcome (@Timeseries.convert_timeseries mixed_world
             timeseries_converter "11117" None None)
    = Return no_observations.
Proof.
  split; [discriminate|]. split.
  - destruct (@convert_timeseries_degrades unreachable_world
                timeseries_converter "11117" None
                (Some "2024-11-05T00:00:00Z")) as (_ & Hfetch & _).
    + discriminate.
    + apply (Hfetch unreachable). vm_compute. reflexivity.
  - destruct (@convert_timeseries_degrades mixed_world
                timeseries_converter "11117" None None)
      as (_ & _ & _ & Hbuild).
    + discriminate.
    + apply (Hbuild (PyList mixed_series) parse_error);
        vm_compute; reflexivity.
Defined.

(** In a sound series, the entry with only a temperature yields one
    Observation. *)
Lemma TimeSeriesObservationBuilder_build_per_field_witness :
  Forall (@well_formed_entry sound_world)
         ([] ++ Demo.temperature_only :: [Demo.both_fields]) /\
  exists o,
    @Timeseries.TimeSeriesObservationBuilder_build sound_world "11117"
      (PyList [Demo.temperature_only]) = Return [o].
Proof.
  assert (Forall (@well_formed_entry sound_world)
            ([] ++ Demo.temperature_only :: [Demo.both_fields])) as Hwf.
  { repeat constructor; eexists; vm_compute; reflexivity. }
  split; [exact Hwf|].
  destruct (@TimeSeriesObservationBuilder_build_per_field sound_world
              "11117" [] [Demo.both_fields] Demo.temperature_only Hwf)
    as (iso & obs_pre & obs_post & _ & _ & _ & _ & Hone & _).
  rewrite Hone. eexists. vm_compute. reflexivity.
Defined.

(** The series with a bad second entry: the builder raises the error
    of pandas and the facade returns no Observation. *)
Lemma build_fails_for_the_whole_list_witness :
  "11117" <> "" /\
  Forall (@well_formed_entry mixed_world) [Demo.temperature_only] /\
  @entry_time mixed_world Demo.bad_date = Raise parse_error /\
  @Timeseries.TimeSeriesObservationBuilder_build mixed_world "11117"
    (PyList ([Demo.temperature_only] ++ Demo.bad_date :: [Demo.both_fields]))
    = Raise parse_error /\
  outcome (@Timeseries.convert_timeseries mixed_world
             timeseries_converter "11117" None None)
    = Return no_observations.
Proof.
  assert (Forall (@well_formed_entry mixed_world) [Demo.temperature_only])
    as Hwf by (repeat constructor; eexists; vm_compute; reflexivity).
  split; [discriminate|]. split; [exact Hwf|]. split; [reflexivity|].
  destruct (@build_fails_for_the_whole_list mixed_world
              timeseries_converter "11117" None None (PyList mixed_series)
              [Demo.temperature_only] [Demo.both_fields] Demo.bad_date
              parse_error) as (Hbuild & Hrun & _); try done.
Defined.

(** A 404, a 304, an unreachable server and a station with a Point
    without coordinates, for both snapshot converters. *)
Lemma snapshot_fetch_failures_witness :
  (exists msg,
     @Latest.convert not_found_world latest_converter
       = Raise (Exn HTTPError msg)) /\
  @Legacy.fetch_and_convert not_found_world older_converter
    = IO (Return None) ["Error: Request failed with status code 404"] /\
  @Latest.fetch_latest not_modified_world (Latest.client latest_converter)
    = Return "" /\
  @Latest.convert unreachable_world latest_converter = Raise unreachable /\
  @Legacy.fetch_and_convert unreachable_world older_converter
    = IO (Raise unreachable) [] /\
  @Latest.convert empty_point_world latest_converter
    = Raise (@empty_point_error empty_point_world) /\
  @Legacy.fetch_and_convert empty_point_world older_converter
    = IO (Raise (@empty_point_error empty_point_world)) [].
Proof.
  destruct (@snapshot_fetch_failures not_found_world latest_converter
              older_converter)
    as (_ & Herror & _ & _ & _ & Hother & _).
  destruct (@snapshot_fetch_failures not_modified_world latest_converter
              older_converter) as (_ & _ & Hpass & _).
  destruct (@snapshot_fetch_failures unreachable_world latest_converter
              older_converter)
    as (Hraise & _ & _ & _ & _ & _ & Hraise' & _).
  destruct (@snapshot_fetch_failures empty_point_world latest_converter
              older_converter)
    as (_ & _ & _ & _ & Hbuild & _ & _ & _ & Hrows).
  split; [|split; [|split; [|split; [|split; [|split]]]]].
  - destruct (Herror (Demo.http_response 404 "Not Found"
                        (Raise (Exn JSONDecodeError "Expecting value"))))
      as (msg & _ & Hconvert); [reflexivity|simpl; lia|].
    by exists msg.
  - apply (Hother (Demo.http_response 404 "Not Found"
                     (Raise (Exn JSONDecodeError "Expecting value"))));
      [reflexivity|discriminate].
  - apply (Hpass (Demo.http_response 304 "" (Return PyNone)));
      [reflexivity|left; simpl; lia].
  - apply Hraise. reflexivity.
  - apply Hraise'. reflexivity.
  - apply (Hbuild "{}" [Demo.station_row; Demo.empty_point_row]);
      reflexivity.
  - apply (Hrows (Demo.http_response 200 "{}" (Return (PyDict [])))
             [Demo.station_row; Demo.empty_point_row]); reflexivity.
Defined.

(** The snapshot of two stations is converted to the dictionary of its
    two rows, and there the humidity Observation of the second station
    refers to a Datastream of the dictionary. *)
Lemma observations_reference_own_datastreams_witness :
  let df := [Demo.station_row; Demo.bare_row] in
  let o := @Latest.humidity_observation snapshot_world Demo.bare_row in
  exists d,
    @Latest.convert snapshot_world latest_converter = Return d /\
    @Latest.entities snapshot_world df = Return d /\
    o ∈ collection d "Observations" /\
    exists ds id,
      ds ∈ collection d "Datastreams" /\
      datastream_ref o = Some id /\
      field ds "@iot.id" = Some id.
Proof.
  intros df o.
  destruct (@observations_reference_own_datastreams snapshot_world df
              latest_converter
              (PyDict [
                 ("Things", PyList (Latest.ThingBuilder_build df));
                 ("Locations", PyList (omap location_of df));
                 ("Datastreams",
                  PyList (@Latest.DataStreamBuilder_build snapshot_world df));
                 ("Observations",
                  PyList (@Latest.ObservationBuilder_build snapshot_world df))]))
    as (_ & Hdict & Hconvert).
  eexists. split; [reflexivity|]. split; [reflexivity|].
  assert (o ∈ @Latest.ObservationBuilder_build snapshot_world df) as Ho.
  { do 3 (apply elem_of_cons; right). apply elem_of_cons. left.
    reflexivity. }
  split; [exact Ho|].
  destruct (Hconvert eq_refl) as [rows Hrows].
  exact (Hdict _ eq_refl o Ho).
Defined.


(** ** Where the code departs from the specification *)

(** C7. One entry with a dateObserved that is no date costs the other
    entries their Observations: the first entry of the sample parses
    and alone yields its Observation, yet the conversion of the list
    raises in the builder and ends with no Observation at all. *)
Lemma one_bad_entry_loses_the_others :
  @entry_time mixed_world Demo.temperature_only
    = Return "2024-11-02T10:00:00+00:00" /\
  (exists o,
     @Timeseries.TimeSeriesObservationBuilder_build mixed_world "11117"
       (PyList [Demo.temperature_only]) = Return [o]) /\
  @entry_time mixed_world Demo.bad_date = Raise parse_error /\
  mixed_series = [Demo.temperature_only; Demo.bad_date; Demo.both_fields] /\
  @Timeseries.TimeSeriesObservationBuilder_build mixed_world "11117"
    (PyList mixed_series) = Raise parse_error /\
  outcome (@Timeseries.convert_timeseries mixed_world
             timeseries_converter "11117" None None)
    = Return (PyDict [("Observations", PyList [])]).
Proof.
  split; [reflexivity|]. split; [eexists; vm_compute; reflexivity|].
  repeat split; vm_compute; reflexivity.
Qed.

(** C8. On a 404 the older converter does not fail: [fetch_latest]
    prints a line and returns None, and so does [fetch_and_convert].
    And on a 304, a status that is no success, the newer
    [fetch_latest] does not fail either: it returns the empty body. *)
Lemma snapshot_fetch_without_failure :
  @Legacy.fetch_latest not_found_world older_converter
    = IO (Return None) ["Error: Request failed with status code 404"] /\
  @Legacy.fetch_and_convert not_found_world older_converter
    = IO (Return None) ["Error: Request failed with status code 404"] /\
  @requests_get not_modified_world
    (Latest.base_url (Latest.client latest_converter) +:+ "/latest")
    = Return (Demo.http_response 304 "" (Return PyNone)) /\
  @Latest.fetch_latest not_modified_world (Latest.client latest_converter)
    = Return "".
Proof. repeat split; vm_compute; reflexivity. Qed.

(** C4. An entry with a temperature field for which no Observation is
    emitted: the first entry of the sample has the field and a
    readable time, but the second entry of the list has no readable
    time, so the builder raises and emits nothing for any entry. *)
Lemma temperature_entry_without_observation :
  mixed_series = [Demo.temperature_only; Demo.bad_date; Demo.both_fields] /\
  py_in "temperature" Demo.temperature_only = true /\
  @well_formed_entry mixed_world Demo.temperature_only /\
  (forall observations,
     @Timeseries.TimeSeriesObservationBuilder_build mixed_world "11117"
       (PyList mixed_series) <> Return observations).
Proof.
  split; [reflexivity|]. split; [reflexivity|].
  split; [eexists; vm_compute; reflexivity|].
  intros observations. vm_compute. discriminate.
Qed.

(** C5. A station whose geometry is a Point without coordinates is
    not passed over: the geometry is an instance of Point, reading its
    x raises, and with it LocationBuilder.build and the whole
    conversion, while ThingBuilder.build has made the two Things. *)
Theorem LocationBuilder_build_empty_point :
  let df := [Demo.station_row; Demo.empty_point_row] in
  is_Point (row_get Demo.empty_point_row "geometry" PyNone) = true /\
  length (Latest.ThingBuilder_build df) = 2%nat /\
  @Latest.LocationBuilder_build empty_point_world df
    = Raise (Exn (OtherException "IndexError") "index out of range") /\
  @Latest.entities empty_point_world df
    = Raise (Exn (OtherException "IndexError") "index out of range") /\
  @Latest.convert empty_point_world latest_converter
    = Raise (Exn (OtherException "IndexError") "index out of range").
Proof. repeat split; vm_compute; reflexivity. Qed.

(** * More properties of the converters *)

(** ** Strings as lists of characters *)

Section Characters.
Local Abbreviation chars := String.list_ascii_of_string.

Lemma chars_append (s1 s2 : string) :
  chars (s1 +:+ s2) = chars s1 ++ chars s2.
Proof. induction s1 as [|a s1 IH]; simpl; [done|]. by rewrite IH. Qed.

Lemma chars_inj (s1 s2 : string) : chars s1 = chars s2 -> s1 = s2.
Proof.
  intros Heq.
  rewrite <- (String.string_of_list_ascii_of_string s1),
          <- (String.string_of_list_ascii_of_string s2).
  by rewrite Heq.
Qed.

Lemma chars_rev_app (s1 s2 : string) :
  chars (String.rev_app s1 s2) = reverse (chars s1) ++ chars s2.
Proof.
  revert s2. induction s1 as [|a s1 IH]; intros s2; simpl; [done|].
  by rewrite IH, reverse_cons, <- app_assoc.
Qed.

Lemma chars_rev (s : string) : chars (String.rev s) = reverse (chars s).
Proof. unfold String.rev. by rewrite chars_rev_app, app_nil_r. Qed.

(** The same ending can be taken off two texts. *)
Lemma append_inv_tail (s1 s2 t : string) : s1 +:+ t = s2 +:+ t -> s1 = s2.
Proof.
  intros Heq. apply chars_inj.
  apply (app_inv_tail (chars t)). by rewrite <- !chars_append, Heq.
Qed.

(** A temperature name is never a humidity name, whatever the two
    stations are. *)
Lemma temperature_name_is_no_humidity_name (s1 s2 : string) :
  s1 +:+ "-temperature" <> s2 +:+ "-humidity".
Proof.
  intros Heq. apply (f_equal chars) in Heq.
  rewrite !chars_append in Heq. apply (f_equal last) in Heq.
  change (chars "-temperature") with (chars "-temperatur" ++ chars "e") in Heq.
  change (chars "-humidity") with (chars "-humidit" ++ chars "y") in Heq.
  rewrite !app_assoc in Heq. simpl (chars "e") in Heq.
  simpl (chars "y") in Heq. by rewrite !last_snoc in Heq.
Qed.

Lemma lstrip_whitespace (s : string) :
  lstrip s = "" <-> all_whitespace s.
Proof.
  unfold all_whitespace. induction s as [|a s IH]; simpl.
  - split; [constructor|done].
  - destruct (is_whitespace a) eqn:Ha.
    + rewrite IH, Forall_cons. split; [done|by intros [_ ?]].
    + split; [done|]. intros [Ha' _]%Forall_cons. congruence.
Qed.

(** What [lstrip] leaves starts with a character that is no white
    space, so it is all white space only when it is empty. *)
Lemma lstrip_all_whitespace (s : string) :
  all_whitespace (lstrip s) -> lstrip s = "".
Proof.
  unfold all_whitespace. induction s as [|a s IH]; simpl; [done|].
  destruct (is_whitespace a) eqn:Ha; [done|].
  simpl. intros [Ha' _]%Forall_cons. congruence.
Qed.

Lemma rev_empty (s : string) : String.rev s = "" -> s = "".
Proof.
  intros Hrev. apply chars_inj. apply (f_equal chars) in Hrev.
  rewrite chars_rev in Hrev. simpl in *.
  apply (f_equal reverse) in Hrev. by rewrite reverse_involutive in Hrev.
Qed.

(** [strip] leaves nothing exactly of the texts of white space. *)
Lemma strip_empty (s : string) : strip s = "" <-> all_whitespace s.
Proof.
  unfold strip. split.
  - intros Hs%rev_empty. apply lstrip_whitespace in Hs.
    unfold all_whitespace in Hs. rewrite chars_rev, Forall_reverse in Hs.
    by apply lstrip_whitespace, lstrip_all_whitespace.
  - intros Hs%lstrip_whitespace. by rewrite Hs.
Qed.
End Characters.

(** ** References between the entities of a snapshot *)

Section SnapshotReferences.
Context `{World}.

(** X1. Locations and Things go by the same ids: every Location of a
    conversion has the "@iot.id" and the name of a Thing of the same
    conversion. *)
Theorem locations_belong_to_things (df : list row)
    (locations : list pyval) (loc : pyval) :
  Latest.LocationBuilder_build df = Return locations ->
  loc ∈ locations ->
  exists thing,
    thing ∈ Latest.ThingBuilder_build df /\
    is_Some (field thing "@iot.id") /\
    field loc "@iot.id" = field thing "@iot.id" /\
    field loc "name" = field thing "name".
Proof.
  intros [_ ->]%LocationBuilder_build_inv. rewrite ThingBuilder_build_map.
  intros (r & Hr & Hloc)%list_elem_of_omap.
  exists (Latest.thing_entity r).
  split; [by apply list_elem_of_fmap_2|]. split; [by eexists|].
  unfold location_of in Hloc.
  destruct (row_get r "geometry" PyNone); by simplify_eq.
Qed.

(** X2. Every Datastream of a conversion names, as its Thing, the
    "@iot.id" of a Thing of the same conversion. *)
Theorem datastreams_belong_to_things (df : list row) (ds : pyval) :
  ds ∈ Latest.DataStreamBuilder_build df ->
  exists thing id,
    thing ∈ Latest.ThingBuilder_build df /\
    field ds "Thing" = Some (PyDict [("@iot.id", id)]) /\
    field thing "@iot.id" = Some id.
Proof.
  rewrite DataStreamBuilder_build_bind, ThingBuilder_build_map.
  intros (r & Hds & Hr)%list_elem_of_bind.
  exists (Latest.thing_entity r), (row_get r "stationId" PyNone).
  split; [by apply list_elem_of_fmap_2|].
  apply elem_of_cons in Hds as [->|Hds]; [done|].
  by apply list_elem_of_singleton in Hds as ->.
Qed.

Lemma datastream_ids_bind (df : list row) :
  ids (Latest.DataStreamBuilder_build df) =
  df ≫= fun r => [Some (PyStr (station_text r +:+ "-temperature"));
                  Some (PyStr (station_text r +:+ "-humidity"))].
Proof.
  rewrite DataStreamBuilder_build_bind. unfold ids.
  induction df as [|r df IH]; [done|].
  by rewrite !bind_cons, fmap_app, IH.
Qed.

(** X3. Stations with different id texts get different Datastream
    ids: when str(stationId) repeats in no two rows, no "@iot.id"
    repeats among the Datastreams. *)
Theorem datastream_ids_distinct (df : list row) :
  NoDup (station_text <$> df) ->
  NoDup (ids (Latest.DataStreamBuilder_build df)).
Proof.
  rewrite datastream_ids_bind.
  induction df as [|r df IH]; [constructor|].
  rewrite fmap_cons, bind_cons. intros [Hr Hdf]%NoDup_cons.
  apply NoDup_app. split; [|split; [|by apply IH]].
  - apply NoDup_cons. split; [|apply NoDup_singleton].
    intros [= Heq]%list_elem_of_singleton.
    by apply temperature_name_is_no_humidity_name in Heq.
  - intros id Hid (r' & Hid' & Hr')%list_elem_of_bind.
    assert (station_text r' <> station_text r) as Hne.
    { intros Heq. apply Hr. rewrite <- Heq. by apply list_elem_of_fmap_2. }
    apply elem_of_cons in Hid as [->|Hid];
      [|apply list_elem_of_singleton in Hid as ->];
      (apply elem_of_cons in Hid' as [Hid'|Hid'];
        [|apply list_elem_of_singleton in Hid']);
      injection Hid' as Hid'.
    + apply append_inv_tail in Hid'. congruence.
    + by apply temperature_name_is_no_humidity_name in Hid'.
    + symmetry in Hid'.
      by apply temperature_name_is_no_humidity_name in Hid'.
    + apply append_inv_tail in Hid'. congruence.
Qed.
End SnapshotReferences.

(** ** The loader of the snapshot *)

Section Loader.
Context `{World}.

(** X4. GeoDataLoader.load hands the decoded collection to geopandas
    with the crs name found under crs.properties.name, and with None
    when the collection has no crs, the crs no properties, or the
    properties no name. *)
Theorem GeoDataLoader_load_crs_name (geojson_str : string)
    (d : list (string * pyval)) :
  json_loads geojson_str = Return (PyDict d) ->
  (dict_get "crs" d = None ->
     Latest.GeoDataLoader_load geojson_str = from_features (PyDict d) PyNone) /\
  (forall c, dict_get "crs" d = Some (PyDict c) ->
     dict_get "properties" c = None ->
     Latest.GeoDataLoader_load geojson_str = from_features (PyDict d) PyNone) /\
  (forall c p, dict_get "crs" d = Some (PyDict c) ->
     dict_get "properties" c = Some (PyDict p) ->
     Latest.GeoDataLoader_load geojson_str
       = from_features (PyDict d) (default PyNone (dict_get "name" p))).
Proof.
  intros Hloads. unfold Latest.GeoDataLoader_load. rewrite Hloads.
  cbn [rbind py_get]. split; [|split].
  - by intros ->.
  - intros c Hc Hp. rewrite Hc. simpl. by rewrite Hp.
  - intros c p Hc Hp. rewrite Hc. simpl. by rewrite Hp.
Qed.

(** X5. A default of [.get] does not stand in for a value that is
    there: when the decoded text is no object, or its crs or the
    properties of the crs are there but are no objects ("crs": null),
    the loader raises AttributeError and geopandas is not asked. *)
Theorem GeoDataLoader_load_rejects (geojson_str : string) (data : pyval) :
  json_loads geojson_str = Return data ->
  (is_dict data = false ->
     Latest.GeoDataLoader_load geojson_str = Raise (no_attribute data "get")) /\
  (forall c, field data "crs" = Some c -> is_dict c = false ->
     Latest.GeoDataLoader_load geojson_str = Raise (no_attribute c "get")) /\
  (forall c p, field data "crs" = Some c ->
     field c "properties" = Some p -> is_dict p = false ->
     Latest.GeoDataLoader_load geojson_str = Raise (no_attribute p "get")).
Proof.
  intros Hloads. unfold Latest.GeoDataLoader_load. rewrite Hloads.
  cbn [rbind]. split; [|split].
  - by destruct data.
  - intros c Hc Hdict. destruct data; try done. simpl in Hc.
    cbn [py_get rbind]. rewrite Hc. simpl. by destruct c.
  - intros c p Hc Hp Hdict. destruct data; try done. simpl in Hc.
    cbn [py_get rbind]. rewrite Hc. simpl.
    destruct c; try done. simpl in Hp. cbn [py_get rbind]. rewrite Hp.
    simpl. by destruct p.
Qed.
End Loader.

(** ** The client of the time series *)

Section TimeseriesClient.
Context `{World}.

Lemma append_assoc (s1 s2 s3 : string) :
  (s1 +:+ s2) +:+ s3 = s1 +:+ s2 +:+ s3.
Proof.
  induction s1 as [|a s1 IH]; [done|].
  change (String a ((s1 +:+ s2) +:+ s3) = String a (s1 +:+ s2 +:+ s3)).
  by rewrite IH.
Qed.

(** What [fetch_timeseries] makes of the answer to its request. *)
Lemma fetch_timeseries_request (self : Timeseries.SmartUrbanHeatMapClient)
    (station_id : string) (time_from time_to : option string) :
  Timeseries.fetch_timeseries self station_id time_from time_to =
  io! response :=
    io_lift (requests_get (timeseries_url (Timeseries.base_url self)
                             station_id time_from time_to)) in
  if (status_code response =? 204)
     || negb (str_truthy (strip (content response)))
  then io_ret (PyList [])
  else
    try_except (io_lift (json response)) is_JSONDecodeError
      (fun _ =>
         run! print ("WARNUNG: Antwort von Station " +:+ station_id
                     +:+ " ist kein gültiges JSON.") in
         io_ret (PyList [])).
Proof. reflexivity. Qed.

Lemma blank_body (s : string) :
  negb (str_truthy (strip s)) = true <-> all_whitespace s.
Proof.
  rewrite <- strip_empty. unfold str_truthy. rewrite negb_involutive.
  apply String.eqb_eq.
Qed.

(** X6. An answer without content is an empty result and no error:
    with the status 204, or with a body of white space only,
    [fetch_timeseries] returns the empty list, prints nothing and does
    not look at what the body decodes to. *)
Theorem fetch_timeseries_empty_answer
    (self : Timeseries.SmartUrbanHeatMapClient) (station_id : string)
    (time_from time_to : option string) (r : response) :
  requests_get (timeseries_url (Timeseries.base_url self)
                  station_id time_from time_to) = Return r ->
  status_code r = 204 \/ all_whitespace (content r) ->
  Timeseries.fetch_timeseries self station_id time_from time_to
    = IO (Return (PyList [])) [].
Proof.
  intros Hget Hempty. rewrite fetch_timeseries_request, Hget.
  unfold io_bind. cbn [io_lift outcome stdout].
  destruct Hempty as [->|Hws%blank_body]; [done|].
  rewrite Hws. by rewrite orb_true_r.
Qed.

(** X7. An answer with content is what its body decodes to.  A body
    that is no JSON is an empty result with a warning on standard
    output; every other exception of the decoder, and every exception
    of the request, leaves [fetch_timeseries]. *)
Theorem fetch_timeseries_body
    (self : Timeseries.SmartUrbanHeatMapClient) (station_id : string)
    (time_from time_to : option string) :
  let url := timeseries_url (Timeseries.base_url self)
               station_id time_from time_to in
  let run := Timeseries.fetch_timeseries self station_id time_from time_to in
  (forall e, requests_get url = Raise e -> run = IO (Raise e) []) /\
  (forall r, requests_get url = Return r ->
     status_code r <> 204 -> ~ all_whitespace (content r) ->
     (forall v, json r = Return v -> run = IO (Return v) []) /\
     (forall e, json r = Raise e -> exn_cls e = JSONDecodeError ->
        run = IO (Return (PyList []))
                 ["WARNUNG: Antwort von Station " +:+ station_id
                  +:+ " ist kein gültiges JSON."]) /\
     (forall e, json r = Raise e -> exn_cls e <> JSONDecodeError ->
        run = IO (Raise e) [])).
Proof.
  intros url run. subst url run. rewrite fetch_timeseries_request.
  split.
  - by intros e ->.
  - intros r -> Hstatus Hbody. rewrite io_bind_return.
    rewrite (proj2 (Z.eqb_neq _ _) Hstatus).
    destruct (negb (str_truthy (strip (content r)))) eqn:Hws;
      [by apply blank_body in Hws|].
    cbn [orb]. unfold try_except. cbn [io_lift outcome stdout].
    split; [|split].
    + by intros v ->.
    + intros e -> Hcls. by rewrite Hcls.
    + intros e -> Hcls. by destruct (exn_cls e).
Qed.

(** X8. The address is put together without escaping: a station id
    that ends in the text of a timeTo parameter asks for the same
    address as the shorter id with that parameter. *)
Theorem timeseries_url_unescaped (base_url station_id time_to : string) :
  time_to <> "" ->
  timeseries_url base_url (station_id +:+ "&timeTo=" +:+ time_to) None None
    = timeseries_url base_url station_id None (Some time_to).
Proof.
  intros Hne. unfold timeseries_url. cbn [opt_truthy].
  rewrite (str_truthy_nonempty _ Hne). cbn [default from_option id].
  by rewrite !append_assoc.
Qed.
End TimeseriesClient.

(** ** The builder of the time series, on every list *)

Section TimeseriesBuilderTotal.
Context `{World}.

Lemma build_entry_returns (station_id : string)
    (observations observations' : list pyval) (entry : pyval) :
  Timeseries.build_entry station_id observations entry = Return observations' ->
  well_formed_entry entry.
Proof.
  intros Hb. destruct (entry_time entry) as [iso|e] eqn:Ht; [by exists iso|].
  by rewrite (build_entry_bad_time _ _ _ e Ht) in Hb.
Qed.

Lemma build_loop_returns (station_id : string)
    (observations observations' entries : list pyval) :
  Timeseries.build_loop station_id observations entries = Return observations' ->
  Forall well_formed_entry entries.
Proof.
  revert observations. induction entries as [|x l IH]; intros acc Hb;
    [constructor|].
  cbn [Timeseries.build_loop] in Hb.
  destruct (Timeseries.build_entry station_id acc x) as [acc'|] eqn:Hx;
    [|done].
  constructor; [by eapply build_entry_returns|by eapply IH].
Qed.

Lemma build_returns_well_formed (station_id : string)
    (observations entries : list pyval) :
  Timeseries.TimeSeriesObservationBuilder_build station_id (PyList entries)
    = Return observations ->
  Forall well_formed_entry entries.
Proof. apply build_loop_returns. Qed.

Lemma expected_observations_of_station (station_id iso : string)
    (entry : pyval) :
  Forall (observation_of station_id)
         (expected_observations station_id iso entry).
Proof.
  unfold expected_observations.
  apply Forall_app; split.
  - destruct (py_in _ entry); [|constructor].
    apply Forall_singleton. split; [by left|by exists iso].
  - destruct (py_in _ entry); [|constructor].
    apply Forall_singleton. split; [by right|by exists iso].
Qed.

Lemma entry_expected_of_station (station_id : string) (entries : list pyval) :
  Forall (observation_of station_id) (entries ≫= entry_expected station_id).
Proof.
  induction entries as [|x l IH]; [constructor|].
  rewrite bind_cons. apply Forall_app; split; [|done].
  unfold entry_expected. destruct (entry_time x); [|constructor].
  apply expected_observations_of_station.
Qed.

Lemma entry_expected_length (station_id : string) (entries : list pyval) :
  (length (entries ≫= entry_expected station_id) <= 2 * length entries)%nat.
Proof.
  induction entries as [|x l IH]; [done|].
  rewrite bind_cons, length_app. cbn [length].
  assert (length (entry_expected station_id x) <= 2)%nat; [|lia].
  unfold entry_expected, expected_observations.
  destruct (entry_time x); [|simpl; lia].
  destruct (py_in "temperature" x), (py_in "relativeHumidity" x);
    simpl; lia.
Qed.

(** X9. The builder returns exactly for the lists in which the time of
    every entry can be read: one entry that is no object, or whose
    dateObserved pandas refuses or turns into a value without
    isoformat, makes it raise. *)
Theorem build_returns_iff_well_formed (station_id : string)
    (entries : list pyval) :
  (exists observations,
     Timeseries.TimeSeriesObservationBuilder_build station_id (PyList entries)
       = Return observations)
  <-> Forall well_formed_entry entries.
Proof.
  split.
  - intros [obs Hb]. by eapply build_returns_well_formed.
  - intros Hwf. eexists. by apply build_well_formed.
Qed.

(** X10. What the builder returns: never more than two Observations
    for an entry, each one referring to "{station_id}-temperature" or
    "{station_id}-humidity" and carrying one text as phenomenonTime
    and as resultTime. *)
Theorem build_observations_of_station (station_id : string)
    (entries observations : list pyval) :
  Timeseries.TimeSeriesObservationBuilder_build station_id (PyList entries)
    = Return observations ->
  Forall (observation_of station_id) observations /\
  (length observations <= 2 * length entries)%nat.
Proof.
  intros Hb. pose proof (build_returns_well_formed _ _ _ Hb) as Hwf.
  rewrite build_well_formed in Hb by done. injection Hb as <-.
  split; [apply entry_expected_of_station|apply entry_expected_length].
Qed.
End TimeseriesBuilderTotal.

(** ** The time-series facade, on every answer *)

Section TimeseriesFacadeTotal.
Context `{World}.

(** A value that is no list and is not empty cannot be built from. *)
Lemma build_rejects_non_lists (station_id : string) (values : pyval) :
  (forall l, values <> PyList l) ->
  py_truthy values = true ->
  exists e, Timeseries.TimeSeriesObservationBuilder_build station_id values
            = Raise e.
Proof.
  intros Hlist Htruthy. unfold Timeseries.TimeSeriesObservationBuilder_build.
  destruct values as [| | | |s|l|d| | | | |]; try (by eexists).
  - destruct s as [|a s]; [done|]. by eexists.
  - by destruct (Hlist l).
  - destruct d as [|[k v] d]; [done|]. by eexists.
Qed.

(** X11. Observations come from a JSON array only, bare or under
    "values": when the answer is a text, a number, true, false or null,
    or an object whose "values" is one of these or an object, the
    result is [{"Observations": []}]. *)
Theorem observations_only_from_arrays
    (self : Timeseries.SensorThingsConverter) (station_id : string)
    (time_from time_to : option string) (ts_data : pyval) :
  station_id <> "" ->
  outcome (Timeseries.fetch_timeseries (Timeseries.client self)
             station_id time_from time_to) = Return ts_data ->
  (forall l, Timeseries.timeseries_values ts_data <> PyList l) ->
  outcome (Timeseries.convert_timeseries self station_id time_from time_to)
    = Return no_observations.
Proof.
  intros Hsid Hfetch Hlist.
  rewrite convert_timeseries_outcome, Hfetch by done. cbn zeta.
  destruct (py_truthy _) eqn:Htruthy; [|done].
  destruct (build_rejects_non_lists station_id _ Hlist Htruthy) as [e He].
  by rewrite He.
Qed.

(** The result of [convert_timeseries], for a station id that is not
    empty. *)
Lemma convert_timeseries_data
    (self : Timeseries.SensorThingsConverter) (station_id : string)
    (time_from time_to : option string) :
  station_id <> "" ->
  exists observations,
    outcome (Timeseries.convert_timeseries self station_id time_from time_to)
      = Return (PyDict [("Observations", PyList observations)]) /\
    Forall (observation_of station_id) observations.
Proof.
  intros Hsid. rewrite convert_timeseries_outcome by done.
  destruct (outcome (Timeseries.fetch_timeseries _ _ _ _)) as [ts_data|e];
    [|by exists []].
  cbn zeta. destruct (py_truthy _) eqn:Htruthy; [|by exists []].
  destruct (Timeseries.TimeSeriesObservationBuilder_build _ _)
    as [obs|e] eqn:Hb; [|by exists []].
  exists obs. split; [done|].
  destruct (Timeseries.timeseries_values ts_data) as [| | | |s|l|d| | | | |]
    eqn:Hv; try done.
  - destruct s as [|a s]; [done|done].
  - pose proof (build_returns_well_formed station_id obs l Hb) as Hwf.
    rewrite build_well_formed in Hb by done. injection Hb as <-.
    apply entry_expected_of_station.
  - destruct d as [|[k v] d]; [done|done].
Qed.

(** X12. For a station id that is not empty, the result is always a
    dictionary with the one key "Observations", over a list, and every
    Observation of it belongs to the two Datastreams of that station. *)
Theorem convert_timeseries_shape
    (self : Timeseries.SensorThingsConverter) (station_id : string)
    (time_from time_to : option string) :
  station_id <> "" ->
  exists observations,
    outcome (Timeseries.convert_timeseries self station_id time_from time_to)
      = Return (PyDict [("Observations", PyList observations)]) /\
    Forall (observation_of station_id) observations.
Proof. apply convert_timeseries_data. Qed.
End TimeseriesFacadeTotal.

Section TimeseriesFacadeReport.
Context `{World}.

(** X13. What [convert_timeseries] prints, after what the fetch
    printed: the line with the text of the exception for every
    exception it swallows, the line "Keine Zeitreihen-Daten ..." for an
    empty answer, and nothing when Observations were built. *)
Theorem convert_timeseries_stdout
    (self : Timeseries.SensorThingsConverter) (station_id : string)
    (time_from time_to : option string) :
  station_id <> "" ->
  let fetched :=
    Timeseries.fetch_timeseries (Timeseries.client self)
      station_id time_from time_to in
  stdout (Timeseries.convert_timeseries self station_id time_from time_to) =
  stdout fetched ++
  match outcome fetched with
  | Raise e => [error_line station_id e]
  | Return ts_data =>
      let values := Timeseries.timeseries_values ts_data in
      if py_truthy values then
        match Timeseries.TimeSeriesObservationBuilder_build station_id values with
        | Return _ => []
        | Raise e => [error_line station_id e]
        end
      else ["Keine Zeitreihen-Daten für Station " +:+ station_id]
  end.
Proof.
  intros Hsid fetched. subst fetched.
  unfold Timeseries.convert_timeseries.
  rewrite (str_truthy_nonempty _ Hsid). cbn [negb].
  unfold try_except, io_bind, error_line.
  destruct (Timeseries.fetch_timeseries _ _ _ _) as [[ts_data|e] out];
    cbn [outcome stdout is_Exception print io_ret]; [|done].
  destruct (py_truthy (Timeseries.timeseries_values ts_data)); cbn [negb];
    [|done].
  destruct (Timeseries.TimeSeriesObservationBuilder_build _ _);
    cbn [io_lift outcome stdout is_Exception print io_ret app];
    by rewrite ?app_nil_r.
Qed.

(** X14. The two shapes of an answer are one: for a bare array of
    entries and for an object with that array under "values", with a
    readable time in every entry, the result holds the expected
    Observations of the entries, entry after entry. *)
Theorem convert_timeseries_of_entries
    (self : Timeseries.SensorThingsConverter) (station_id : string)
    (time_from time_to : option string) (ts_data : pyval)
    (entries : list pyval) :
  station_id <> "" ->
  outcome (Timeseries.fetch_timeseries (Timeseries.client self)
             station_id time_from time_to) = Return ts_data ->
  ts_data = PyList entries \/
    (exists d, ts_data = PyDict d /\ dict_get "values" d = Some (PyList entries)) ->
  Forall well_formed_entry entries ->
  outcome (Timeseries.convert_timeseries self station_id time_from time_to)
    = Return (PyDict [("Observations",
                       PyList (entries ≫= entry_expected station_id))]).
Proof.
  intros Hsid Hfetch Hshape Hwf.
  assert (Timeseries.timeseries_values ts_data = PyList entries) as Hvalues.
  { destruct Hshape as [->|(d & -> & Hd)]; [done|]. simpl. by rewrite Hd. }
  rewrite convert_timeseries_outcome, Hfetch by done. cbn zeta.
  rewrite Hvalues, build_well_formed by done.
  destruct entries; [done|done].
Qed.
End TimeseriesFacadeReport.

(** ** The older converter *)

Section OlderConverter.
Context `{World}.

Lemma complete_row_columns (r : row) :
  complete_row r ->
  exists sid x y name outdated plausible date temperature humidity,
    r !! "stationId" = Some sid /\
    r !! "geometry" = Some (PyPoint x y) /\
    r !! "name" = Some name /\
    r !! "outdated" = Some outdated /\
    r !! "measurementsPlausible" = Some plausible /\
    r !! "dateObserved" = Some date /\
    r !! "temperature" = Some temperature /\
    r !! "relativeHumidity" = Some humidity.
Proof.
  intros [Hcols Hpoint]. unfold columns in Hcols.
  repeat (apply Forall_cons in Hcols as [[? ?] Hcols]).
  unfold has_point, row_get in Hpoint.
  destruct (r !! "geometry") as [[]|] eqn:Hg; try done.
  simplify_eq. by repeat eexists.
Qed.

(** The older loop body on a complete row: what it appends is what the
    newer builders make of the row, but for the description of the
    Thing and for a dateObserved that has isoformat without being a
    pandas Timestamp. *)
Lemma convert_row_complete (acc : Legacy.collections) (r : row) :
  complete_row r ->
  exists thing observation_temp observation_hum,
    Legacy.convert_row acc r = Return {|
      Legacy.things := Legacy.things acc ++ [thing];
      Legacy.locations := Legacy.locations acc ++ omap location_of [r];
      Legacy.datastreams :=
        Legacy.datastreams acc ++ Latest.DataStreamBuilder_build [r];
      Legacy.observations :=
        Legacy.observations acc ++ [observation_temp; observation_hum] |} /\
    (forall k, k <> "description" ->
       field thing k = field (Latest.thing_entity r) k) /\
    (is_other_datetime (row_get r "dateObserved" PyNone) = false ->
       [observation_temp; observation_hum]
         = Latest.ObservationBuilder_build [r]).
Proof.
  intros (sid & x & y & name & outdated & plausible & date & temperature
          & humidity & Hsid & Hgeom & Hname & Hout & Hpl & Hdate & Htemp
          & Hhum)%complete_row_columns.
  unfold Legacy.convert_row, row_getitem.
  rewrite Hsid, Hgeom, Hname, Hout, Hpl, Hdate, Htemp, Hhum.
  cbn [rbind Legacy.geom_x Legacy.geom_y].
  do 3 eexists. split; [|split].
  - f_equal. f_equal.
    + cbn [omap list_omap]. unfold location_of, Latest.location_entity,
        row_get. by rewrite Hgeom, Hsid, Hname.
    + unfold Latest.DataStreamBuilder_build, Latest.temperature_datastream,
        Latest.humidity_datastream, row_get.
      cbn [fold_left]. rewrite Hsid, Hname. by rewrite <- app_assoc.
    + by rewrite <- app_assoc.
  - intros k Hk. unfold Latest.thing_entity, row_get.
    rewrite Hsid, Hname, Hout, Hpl. cbn [from_option id field dict_get].
    destruct (String.eqb k "@iot.id"); [done|].
    destruct (String.eqb k "name"); [done|].
    destruct (String.eqb_spec k "description"); [done|].
    done.
  - unfold Latest.ObservationBuilder_build, Latest.temperature_observation,
      Latest.humidity_observation, row_get.
    cbn [fold_left]. rewrite Hsid, Hdate, Htemp, Hhum.
    cbn [from_option id app]. intros Hdt.
    by destruct date.
Qed.
End OlderConverter.

Section OlderConverterRows.
Context `{World}.

Lemma convert_row_returns (acc c : Legacy.collections) (r : row) :
  Legacy.convert_row acc r = Return c -> complete_row r.
Proof.
  unfold Legacy.convert_row, row_getitem. intros Hc.
  destruct (r !! "stationId") as [sid|] eqn:Hsid; [|done].
  destruct (r !! "geometry") as [geom|] eqn:Hgeom; [|done].
  destruct (r !! "name") as [name|] eqn:Hname; [|done].
  destruct (r !! "outdated") as [outdated|] eqn:Hout; [|done].
  destruct (r !! "measurementsPlausible") as [plausible|] eqn:Hpl; [|done].
  cbn [rbind] in Hc.
  destruct geom as [| | | | | | | | |x y| |]; try done.
  cbn [rbind Legacy.geom_x Legacy.geom_y] in Hc.
  destruct (r !! "dateObserved") as [date|] eqn:Hdate; [|done].
  destruct (r !! "temperature") as [temperature|] eqn:Htemp; [|done].
  destruct (r !! "relativeHumidity") as [humidity|] eqn:Hhum; [|done].
  split.
  - unfold columns. repeat constructor; by eexists.
  - unfold has_point, row_get. by rewrite Hgeom.
Qed.

Lemma convert_rows_returns (acc c : Legacy.collections) (df : list row) :
  Legacy.convert_rows acc df = Return c -> Forall complete_row df.
Proof.
  revert acc. induction df as [|r df IH]; intros acc Hc; [constructor|].
  cbn [Legacy.convert_rows] in Hc.
  destruct (Legacy.convert_row acc r) as [acc'|] eqn:Hr; [|done].
  constructor; [by eapply convert_row_returns|by eapply IH].
Qed.

Lemma builds_cons (r : row) (df : list row) :
  omap location_of (r :: df) = omap location_of [r] ++ omap location_of df /\
  Latest.DataStreamBuilder_build (r :: df)
    = Latest.DataStreamBuilder_build [r] ++ Latest.DataStreamBuilder_build df.
Proof.
  rewrite !DataStreamBuilder_build_bind.
  split.
  - change (r :: df) with ([r] ++ df). by rewrite omap_app.
  - change (r :: df) with ([r] ++ df). by rewrite bind_app.
Qed.

Lemma convert_rows_complete (acc : Legacy.collections) (df : list row) :
  Forall complete_row df ->
  exists things observations,
    Legacy.convert_rows acc df = Return {|
      Legacy.things := Legacy.things acc ++ things;
      Legacy.locations := Legacy.locations acc ++ omap location_of df;
      Legacy.datastreams :=
        Legacy.datastreams acc ++ Latest.DataStreamBuilder_build df;
      Legacy.observations := Legacy.observations acc ++ observations |} /\
    Forall2 same_but_description things (Latest.ThingBuilder_build df) /\
    (Forall (fun r => is_other_datetime (row_get r "dateObserved" PyNone)
                      = false) df ->
     observations = Latest.ObservationBuilder_build df).
Proof.
  intros Hdf. revert acc. induction Hdf as [|r df Hr _ IH]; intros acc.
  - exists [], []. destruct acc. cbn. rewrite !app_nil_r.
    by repeat split.
  - destruct (convert_row_complete acc r Hr)
      as (thing & ot & oh & Hrow & Hthing & Hobs).
    cbn [Legacy.convert_rows]. rewrite Hrow. cbn [rbind].
    destruct (IH {|
      Legacy.things := Legacy.things acc ++ [thing];
      Legacy.locations := Legacy.locations acc ++ omap location_of [r];
      Legacy.datastreams :=
        Legacy.datastreams acc ++ Latest.DataStreamBuilder_build [r];
      Legacy.observations := Legacy.observations acc ++ [ot; oh] |})
      as (ths & obs & Hrows & Hths & Hobss).
    exists (thing :: ths), ([ot; oh] ++ obs).
    rewrite Hrows. cbn [Legacy.things Legacy.locations Legacy.datastreams
                        Legacy.observations].
    split; [|split].
    + destruct (builds_cons r df) as [-> ->].
      by rewrite <- !app_assoc.
    + rewrite ThingBuilder_build_map, fmap_cons.
      constructor; [done|]. by rewrite <- ThingBuilder_build_map.
    + intros [Hdate Hdates]%Forall_cons.
      rewrite (Hobs Hdate), (Hobss Hdates).
      by rewrite !ObservationBuilder_build_bind.
Qed.

Lemma older_converter_rows_return (df : list row) :
  Forall complete_row df ->
  exists c,
    Legacy.convert_rows
      {| Legacy.things := []; Legacy.locations := [];
         Legacy.datastreams := []; Legacy.observations := [] |} df
    = Return c.
Proof.
  intros Hdf.
  destruct (convert_rows_complete
              {| Legacy.things := []; Legacy.locations := [];
                 Legacy.datastreams := []; Legacy.observations := [] |}
              df Hdf) as (ths & obs & Hrows & _).
  by eexists.
Qed.

Lemma complete_rows_have_coordinates (df : list row) :
  Forall complete_row df -> Forall (fun r => has_empty_point r = false) df.
Proof.
  intros Hdf. eapply Forall_impl; [exact Hdf|]. intros r [_ Hpoint].
  unfold has_point in Hpoint. unfold has_empty_point.
  by destruct (row_get r "geometry" PyNone).
Qed.

(** X15. On rows that have all eight columns and a Point with
    coordinates, the older converter and the newer builders both
    return, and the older converter builds what the newer builders
    build: the same Locations and Datastreams, the same Observations
    unless a dateObserved has isoformat without being a pandas
    Timestamp, and Things that differ in their description only. *)
Theorem older_converter_agrees (df : list row) :
  Forall complete_row df ->
  exists d d',
    Legacy.convert_to_sensorthings (Some df) = io_ret (Some d) /\
    Latest.entities df = Return d' /\
    field d "Locations" = field d' "Locations" /\
    field d "Datastreams" = field d' "Datastreams" /\
    (Forall (fun r => is_other_datetime (row_get r "dateObserved" PyNone)
                      = false) df ->
     field d "Observations" = field d' "Observations") /\
    Forall2 same_but_description
      (collection d "Things") (collection d' "Things").
Proof.
  intros Hdf. unfold Legacy.convert_to_sensorthings.
  destruct (convert_rows_complete
              {| Legacy.things := []; Legacy.locations := [];
                 Legacy.datastreams := []; Legacy.observations := [] |}
              df Hdf) as (ths & obs & Hrows & Hths & Hobs).
  rewrite Hrows. eexists _, _. split; [reflexivity|].
  split; [by apply entities_returns, complete_rows_have_coordinates|].
  cbn. split; [done|]. split; [done|]. split; [|done].
  intros Hdates. by rewrite (Hobs Hdates).
Qed.

(** X16. The older converter has no tolerance for a row: it returns
    exactly when every row has all eight columns and a Point with
    coordinates as geometry, and raises for the whole row set
    otherwise. *)
Theorem older_converter_needs_complete_rows (df : list row) :
  (exists d, outcome (Legacy.convert_to_sensorthings (Some df)) = Return d)
  <-> Forall complete_row df.
Proof.
  split.
  - intros [d Hd]. unfold Legacy.convert_to_sensorthings in Hd.
    rewrite outcome_io_bind in Hd. cbn [io_lift outcome] in Hd.
    destruct (Legacy.convert_rows _ df) as [c|] eqn:Hc; [|done].
    by eapply convert_rows_returns.
  - intros Hdf. destruct (older_converter_rows_return df Hdf) as [c Hc].
    unfold Legacy.convert_to_sensorthings.
    rewrite outcome_io_bind. cbn [io_lift outcome]. rewrite Hc.
    by eexists.
Qed.
End OlderConverterRows.

(** ** The views of the web application *)

Section Views.
Context `{World} `{App.Flask}.

(** X17. The view of /timeseries answers a request without stationId,
    or with an empty one, with the status 400 and the error
    "stationId is required"; it prints nothing and no converter is
    run, whatever the other parameters are. *)
Theorem timeseries_view_requires_station (args : gmap string string)
    (body : pyval) :
  args !! "stationId" = None \/ args !! "stationId" = Some "" ->
  App.jsonify (PyDict [("error", PyStr "stationId is required")])
    = Return body ->
  App.timeseries args = IO (Return (body, 400)) [].
Proof.
  intros Hsid Hjson. unfold App.timeseries.
  assert (opt_truthy (args !! "stationId") = false) as ->
    by (by destruct Hsid as [->| ->]).
  cbn [negb]. rewrite Hjson. reflexivity.
Qed.

(** X18. With a station id, the view of /timeseries answers 200 with
    a dictionary of Observations whatever the upstream did, an
    unreachable upstream included; the status 500 is left to a failure
    of the serialiser. *)
Theorem timeseries_view_answers (args : gmap string string)
    (station_id : string) :
  args !! "stationId" = Some station_id ->
  station_id <> "" ->
  exists observations,
    let data := PyDict [("Observations", PyList observations)] in
    outcome (Timeseries.convert_timeseries
               (Timeseries.SensorThingsConverter_init None) station_id
               (args !! "timeFrom") (args !! "timeTo")) = Return data /\
    Forall (observation_of station_id) observations /\
    outcome (App.timeseries args) =
      match App.jsonify data with
      | Return body => Return (body, 200)
      | Raise e =>
          let! body := App.jsonify (PyDict [("error", PyStr (exn_str e))]) in
          Return (body, 500)
      end.
Proof.
  intros Hargs Hsid.
  destruct (convert_timeseries_data
              (Timeseries.SensorThingsConverter_init None) station_id
              (args !! "timeFrom") (args !! "timeTo") Hsid)
    as (obs & Hrun & Hobs).
  exists obs. split; [done|]. split; [done|].
  unfold App.timeseries. rewrite Hargs. cbn [opt_truthy].
  rewrite (str_truthy_nonempty _ Hsid). cbn [negb default from_option id].
  rewrite outcome_try_except_Exception, outcome_io_bind, Hrun.
  rewrite outcome_io_bind. cbn [io_lift outcome].
  destruct (App.jsonify _) as [body|e]; [done|].
  rewrite outcome_io_bind. cbn [io_lift outcome].
  by destruct (App.jsonify _).
Qed.

(** X19. The view of /latest answers 200 only with the serialised
    result of a conversion that returned, and 500 only with the text
    of the exception that the conversion or the serialiser raised; it
    has no other status. *)
Theorem latest_view_answers (body : pyval) (status : Z) :
  App.latest = Return (body, status) ->
  let converted :=
    Latest.convert (Latest.SensorThingsConverter_init None) in
  (status = 200 /\
   exists data, converted = Return data /\ App.jsonify data = Return body) \/
  (status = 500 /\
   exists e,
     (converted = Raise e \/
      exists data, converted = Return data /\ App.jsonify data = Raise e) /\
     App.jsonify (PyDict [("error", PyStr (exn_str e))]) = Return body).
Proof.
  unfold App.latest, App.result_try. cbn zeta.
  destruct (Latest.convert _) as [data|e] eqn:Hc; cbn [rbind is_Exception].
  - destruct (App.jsonify data) as [b|e] eqn:Hj; cbn [rbind is_Exception].
    + intros [= <- <-]. left. split; [done|]. by exists data.
    + destruct (App.jsonify (PyDict _)) as [b|] eqn:He; [|done].
      intros [= <- <-]. right. split; [done|]. exists e.
      split; [|done]. right. by exists data.
  - destruct (App.jsonify (PyDict _)) as [b|] eqn:He; [|done].
    intros [= <- <-]. right. split; [done|]. exists e. split; [by left|done].
Qed.
End Views.

(** ** The save methods *)

Section Saves.
Context `{World} {FS : Type} `{Saving.FileIO FS}.

(** X20. The snapshot [save_to_json] leaves the files alone when the
    upstream fails: on an exception of the request and on a status
    from 400 to 599 it raises before the file is opened, and prints
    nothing. *)
Theorem Latest_save_to_json_untouched
    (self : Latest.SensorThingsConverter) (filename : string) (fs : FS) :
  let url := Latest.base_url (Latest.client self) +:+ "/latest" in
  (forall e, requests_get url = Raise e ->
     Saving.Latest_save_to_json self filename fs = (fs, IO (Raise e) [])) /\
  (forall r, requests_get url = Return r -> 400 <= status_code r < 600 ->
     exists msg,
       Saving.Latest_save_to_json self filename fs
         = (fs, IO (Raise (Exn HTTPError msg)) [])).
Proof.
  intros url. subst url.
  unfold Saving.Latest_save_to_json, Latest.convert, Latest.fetch_latest.
  split.
  - by intros e ->.
  - intros r -> Hs. destruct (raise_for_status_error r Hs) as [msg Hmsg].
    exists msg. cbn [rbind]. by rewrite Hmsg.
Qed.

(** X21. [save_timeseries_to_json] writes its file whatever the
    upstream did: for a station id that is not empty the file is
    written with a dictionary of Observations, the empty one when the
    fetch or the builder failed. *)
Theorem save_timeseries_to_json_writes
    (self : Timeseries.SensorThingsConverter)
    (station_id filename : string) (time_from time_to : option string)
    (fs : FS) :
  station_id <> "" ->
  exists observations,
    outcome (Timeseries.convert_timeseries self station_id time_from time_to)
      = Return (PyDict [("Observations", PyList observations)]) /\
    (Saving.save_timeseries_to_json self station_id filename
       time_from time_to fs).1
      = (Saving.write_json filename false
           (PyDict [("Observations", PyList observations)]) fs).1 /\
    outcome (Saving.save_timeseries_to_json self station_id filename
               time_from time_to fs).2
      = (Saving.write_json filename false
           (PyDict [("Observations", PyList observations)]) fs).2.
Proof.
  intros Hsid.
  destruct (convert_timeseries_data self station_id time_from time_to Hsid)
    as (obs & Hrun & _).
  exists obs. split; [done|].
  unfold Saving.save_timeseries_to_json. cbn zeta. rewrite Hrun.
  destruct (Saving.write_json _ _ _ _) as [fs' written]. cbn [fst snd].
  split; [done|]. rewrite outcome_io_bind, Hrun, outcome_io_bind.
  cbn [io_lift outcome]. by destruct written as [[]|].
Qed.

(** X22. The older [save_to_json] is silent about a failed fetch: on
    every status other than 200 it leaves the files alone and returns
    without an exception; the line of [fetch_latest] is all that is
    printed. *)
Theorem Legacy_save_to_json_skips
    (self : Legacy.SensorThingsConverter) (filename : string) (fs : FS)
    (r : response) :
  requests_get (Legacy.base_url self +:+ "/latest") = Return r ->
  status_code r <> 200 ->
  Saving.Legacy_save_to_json self filename fs =
  (fs, IO (Return tt)
          ["Error: Request failed with status code "
           +:+ pretty (status_code r)]).
Proof.
  intros Hget Hs.
  assert (Legacy.fetch_and_convert self =
          IO (Return None)
             ["Error: Request failed with status code "
              +:+ pretty (status_code r)]) as Hrun.
  { unfold Legacy.fetch_and_convert, Legacy.fetch_latest.
    rewrite Hget, io_bind_return, (proj2 (Z.eqb_neq _ _) Hs).
    reflexivity. }
  unfold Saving.Legacy_save_to_json. cbn zeta. by rewrite Hrun.
Qed.
End Saves.

(** ** The further properties applied to the samples *)

Import MoreSamples.

(** The Location of the first sample station has the id and the name
    of a Thing. *)
Lemma locations_belong_to_things_witness :
  let df := [Demo.station_row; Demo.bare_row] in
  let loc := Latest.location_entity Demo.station_row
               7.4474%float 46.948%float in
  @Latest.LocationBuilder_build snapshot_world df = Return [loc] /\
  exists thing,
    thing ∈ Latest.ThingBuilder_build df /\
    is_Some (field thing "@iot.id") /\
    field loc "@iot.id" = field thing "@iot.id" /\
    field loc "name" = field thing "name".
Proof.
  intros df loc.
  assert (@Latest.LocationBuilder_build snapshot_world df = Return [loc])
    as Hb by reflexivity.
  split; [exact Hb|].
  apply (@locations_belong_to_things snapshot_world df [loc] loc Hb).
  apply elem_of_cons. left. reflexivity.
Defined.

(** The humidity Datastream of the station without geometry names
    its Thing. *)
Lemma datastreams_belong_to_things_witness :
  let df := [Demo.station_row; Demo.bare_row] in
  let ds := @Latest.humidity_datastream snapshot_world Demo.bare_row in
  ds ∈ @Latest.DataStreamBuilder_build snapshot_world df /\
  exists thing id,
    thing ∈ Latest.ThingBuilder_build df /\
    field ds "Thing" = Some (PyDict [("@iot.id", id)]) /\
    field thing "@iot.id" = Some id.
Proof.
  intros df ds.
  assert (ds ∈ @Latest.DataStreamBuilder_build snapshot_world df) as Hds.
  { do 3 (apply elem_of_cons; right). apply elem_of_cons. left.
    reflexivity. }
  split; [exact Hds|].
  exact (@datastreams_belong_to_things snapshot_world df ds Hds).
Defined.

(** Two stations, four Datastream ids, no two alike. *)
Lemma datastream_ids_distinct_witness :
  let df := [Demo.station_row; Demo.bare_row] in
  NoDup (@station_text snapshot_world <$> df) /\
  NoDup (ids (@Latest.DataStreamBuilder_build snapshot_world df)).
Proof.
  intros df.
  assert (NoDup (@station_text snapshot_world <$> df)) as Hdf.
  { apply NoDup_cons. split; [|apply NoDup_singleton].
    intros Hin%list_elem_of_singleton. discriminate Hin. }
  split; [exact Hdf|].
  exact (@datastream_ids_distinct snapshot_world df Hdf).
Defined.

(** A collection with a named crs is loaded with that name. *)
Lemma GeoDataLoader_load_crs_name_witness :
  @json_loads named_crs_world "{}" = Return named_crs /\
  @Latest.GeoDataLoader_load named_crs_world "{}"
    = Return [ {[ "crs" := PyStr "EPSG:4326" ]} ].
Proof.
  split; [reflexivity|].
  destruct (@GeoDataLoader_load_crs_name named_crs_world "{}"
              [("type", PyStr "FeatureCollection");
               ("crs", PyDict [("type", PyStr "name");
                               ("properties",
                                PyDict [("name", PyStr "EPSG:4326")])])])
    as (_ & _ & Hnamed); [reflexivity|].
  rewrite (Hnamed [("type", PyStr "name");
                   ("properties", PyDict [("name", PyStr "EPSG:4326")])]
                  [("name", PyStr "EPSG:4326")]); reflexivity.
Defined.

(** A collection with "crs": null is not loaded. *)
Lemma GeoDataLoader_load_rejects_witness :
  @json_loads null_crs_world "{}"
    = Return (PyDict [("type", PyStr "FeatureCollection"); ("crs", PyNone)]) /\
  @Latest.GeoDataLoader_load null_crs_world "{}"
    = Raise (Exn AttributeError "'NoneType' object has no attribute 'get'").
Proof.
  split; [reflexivity|].
  destruct (@GeoDataLoader_load_rejects null_crs_world "{}"
              (PyDict [("type", PyStr "FeatureCollection"); ("crs", PyNone)]))
    as (_ & Hcrs & _); [reflexivity|].
  rewrite (Hcrs PyNone); reflexivity.
Defined.

(** A body of a line break and a blank is an empty answer. *)
Lemma fetch_timeseries_empty_answer_witness :
  let r := Demo.http_response 200 (String (Ascii.ascii_of_nat 10) " ")
             (Raise (Exn JSONDecodeError "Expecting value")) in
  @requests_get blank_world
    (timeseries_url Timeseries.default_base_url "11117" None None) = Return r /\
  all_whitespace (content r) /\
  @Timeseries.fetch_timeseries blank_world
    (Timeseries.client timeseries_converter) "11117" None None
    = IO (Return (PyList [])) [].
Proof.
  intros r.
  assert (all_whitespace (content r)) as Hws
    by (repeat constructor).
  split; [reflexivity|]. split; [exact Hws|].
  apply (@fetch_timeseries_empty_answer blank_world
           (Timeseries.client timeseries_converter) "11117" None None r);
    [reflexivity|right; exact Hws].
Defined.

(** A page of HTML is an empty result with a warning. *)
Lemma fetch_timeseries_body_witness :
  @Timeseries.fetch_timeseries html_world
    (Timeseries.client timeseries_converter) "11117" None None
  = IO (Return (PyList []))
       ["WARNUNG: Antwort von Station 11117 ist kein gültiges JSON."].
Proof.
  destruct (@fetch_timeseries_body html_world
              (Timeseries.client timeseries_converter) "11117" None None)
    as (_ & Hbody).
  destruct (Hbody (Demo.http_response 200 "<html>"
                     (Raise (Exn JSONDecodeError "Expecting value"))))
    as (_ & Hwarn & _).
  - reflexivity.
  - discriminate.
  - intros Hws. apply Forall_cons in Hws as [Hlt _]. discriminate Hlt.
  - apply (Hwarn (Exn JSONDecodeError "Expecting value")); reflexivity.
Defined.

(** The id "11117&timeTo=2024" asks for the address of the id 11117
    with the timeTo 2024. *)
Lemma timeseries_url_unescaped_witness :
  "2024" <> "" /\
  timeseries_url "https://host" ("11117" +:+ "&timeTo=" +:+ "2024") None None
    = timeseries_url "https://host" "11117" None (Some "2024").
Proof.
  split; [discriminate|].
  apply timeseries_url_unescaped. discriminate.
Defined.

Lemma sound_series_well_formed :
  Forall (@well_formed_entry sound_world) sound_series.
Proof. repeat constructor; eexists; vm_compute; reflexivity. Defined.

(** The sound series is built. *)
Lemma build_returns_iff_well_formed_witness :
  Forall (@well_formed_entry sound_world) sound_series /\
  exists observations,
    @Timeseries.TimeSeriesObservationBuilder_build sound_world "11117"
      (PyList sound_series) = Return observations.
Proof.
  split; [exact sound_series_well_formed|].
  apply (@build_returns_iff_well_formed sound_world "11117" sound_series).
  exact sound_series_well_formed.
Defined.

(** The three Observations of the sound series belong to station
    11117. *)
Lemma build_observations_of_station_witness :
  exists observations,
    @Timeseries.TimeSeriesObservationBuilder_build sound_world "11117"
      (PyList sound_series) = Return observations /\
    Forall (observation_of "11117") observations /\
    (length observations <= 2 * length sound_series)%nat.
Proof.
  eexists. split; [vm_compute; reflexivity|].
  apply (@build_observations_of_station sound_world "11117" sound_series).
  vm_compute. reflexivity.
Defined.

(** A JSON text as the answer gives no Observation. *)
Lemma observations_only_from_arrays_witness :
  outcome (@Timeseries.fetch_timeseries text_world
             (Timeseries.client timeseries_converter) "11117" None None)
    = Return (PyStr "maintenance") /\
  outcome (@Timeseries.convert_timeseries text_world
             timeseries_converter "11117" None None)
    = Return no_observations.
Proof.
  split; [reflexivity|].
  apply (@observations_only_from_arrays text_world timeseries_converter
           "11117" None None (PyStr "maintenance"));
    [discriminate|reflexivity|discriminate].
Defined.

(** An unreachable upstream still gives a dictionary of Observations. *)
Lemma convert_timeseries_shape_witness :
  "11117" <> "" /\
  exists observations,
    outcome (@Timeseries.convert_timeseries unreachable_world
               timeseries_converter "11117" None None)
      = Return (PyDict [("Observations", PyList observations)]) /\
    Forall (observation_of "11117") observations.
Proof.
  split; [discriminate|].
  apply (@convert_timeseries_shape unreachable_world). discriminate.
Defined.

(** The series with the bad entry: one line, with the text of pandas. *)
Lemma convert_timeseries_stdout_witness :
  "11117" <> "" /\
  stdout (@Timeseries.convert_timeseries mixed_world
            timeseries_converter "11117" None None)
    = ["Fehler beim Abrufen der Zeitreihe für Station 11117: Unknown datetime string format, unable to parse: not-a-date"].
Proof.
  split; [discriminate|].
  rewrite (@convert_timeseries_stdout mixed_world timeseries_converter
             "11117" None None); [reflexivity|discriminate].
Defined.

(** The samples under "values" give the Observations of the bare
    samples. *)
Lemma convert_timeseries_of_entries_witness :
  outcome (@Timeseries.convert_timeseries wrapped_world
             timeseries_converter "11117" None None)
  = outcome (@Timeseries.convert_timeseries sound_world
               timeseries_converter "11117" None None).
Proof.
  rewrite (@convert_timeseries_of_entries wrapped_world timeseries_converter
             "11117" None None
             (PyDict [("values", PyList sound_series)]) sound_series).
  - rewrite (@convert_timeseries_of_entries sound_world timeseries_converter
               "11117" None None (PyList sound_series) sound_series).
    + reflexivity.
    + discriminate.
    + reflexivity.
    + by left.
    + exact sound_series_well_formed.
  - discriminate.
  - reflexivity.
  - right. eexists. split; reflexivity.
  - exact sound_series_well_formed.
Defined.

Lemma complete_rows :
  Forall complete_row [Demo.station_row; second_row].
Proof.
  apply Forall_cons. split; [|apply Forall_cons; split; [|constructor]].
  - split; [|reflexivity]. unfold columns.
    repeat (apply Forall_cons; split; [eexists; reflexivity|]).
    constructor.
  - split; [|reflexivity]. unfold columns.
    repeat (apply Forall_cons; split; [eexists; reflexivity|]).
    constructor.
Defined.

(** Two complete stations: the older converter returns, with the
    Datastreams of the newer builder. *)
Lemma older_converter_agrees_witness :
  let df := [Demo.station_row; second_row] in
  Forall complete_row df /\
  exists d d',
    @Legacy.convert_to_sensorthings complete_world (Some df)
      = io_ret (Some d) /\
    @Latest.entities complete_world df = Return d' /\
    field d "Locations" = field d' "Locations" /\
    field d "Datastreams" = field d' "Datastreams".
Proof.
  intros df. split; [exact complete_rows|].
  destruct (@older_converter_agrees complete_world df complete_rows)
    as (d & d' & Hrun & Hnew & Hloc & Hds & _).
  by exists d, d'.
Defined.

(** Two complete stations are converted by the older converter. *)
Lemma older_converter_needs_complete_rows_witness :
  let df := [Demo.station_row; second_row] in
  Forall complete_row df /\
  exists d,
    outcome (@Legacy.convert_to_sensorthings complete_world (Some df))
      = Return d.
Proof.
  intros df. split; [exact complete_rows|].
  apply (@older_converter_needs_complete_rows complete_world df).
  exact complete_rows.
Defined.

(** A request without parameters is answered with 400. *)
Lemma timeseries_view_requires_station_witness :
  @App.timeseries unreachable_world plain_flask ∅
  = IO (Return (PyDict [("error", PyStr "stationId is required")], 400)) [].
Proof.
  apply (@timeseries_view_requires_station unreachable_world plain_flask);
    [by left|reflexivity].
Defined.

(** With an unreachable upstream the view still answers 200. *)
Lemma timeseries_view_answers_witness :
  let args : gmap string string := {[ "stationId" := "11117" ]} in
  args !! "stationId" = Some "11117" /\
  outcome (@App.timeseries unreachable_world plain_flask args)
    = Return (PyDict [("Observations", PyList [])], 200).
Proof.
  intros args. split; [reflexivity|].
  destruct (@timeseries_view_answers unreachable_world plain_flask
              args "11117") as (obs & Hrun & _ & Hview);
    [reflexivity|discriminate|].
  rewrite Hview. cbn zeta in Hrun.
  assert (obs = []) as -> by (by injection Hrun).
  reflexivity.
Defined.

(** A 404 of the upstream is a 500 of the view of /latest. *)
Lemma latest_view_answers_witness :
  let body :=
    PyDict [("error", PyStr "404 Client Error:  for url: ")] in
  @App.latest not_found_world plain_flask = Return (body, 500) /\
  exists e,
    @Latest.convert not_found_world (Latest.SensorThingsConverter_init None)
      = Raise e /\
    PyDict [("error", PyStr (exn_str e))] = body.
Proof.
  intros body.
  assert (@App.latest not_found_world plain_flask = Return (body, 500))
    as Hview by reflexivity.
  split; [exact Hview|].
  destruct (@latest_view_answers not_found_world plain_flask body 500 Hview)
    as [[Hs _]|(_ & e & [Hc|(data & Hc & _)] & He)].
  - discriminate Hs.
  - exists e. split; [exact Hc|].
    exact (f_equal (fun r => match r with
                             | Return v => v
                             | Raise _ => PyNone
                             end) He).
  - discriminate Hc.
Defined.

(** A 404 and an unreachable server leave the files as they were. *)
Lemma Latest_save_to_json_untouched_witness :
  let fs : gmap string pyval := {[ "sensor_things_output.json" := PyNone ]} in
  (exists msg,
     @Saving.Latest_save_to_json not_found_world _ plain_files
       latest_converter "sensor_things_output.json" fs
     = (fs, IO (Raise (Exn HTTPError msg)) [])) /\
  @Saving.Latest_save_to_json unreachable_world _ plain_files
    latest_converter "sensor_things_output.json" fs
  = (fs, IO (Raise unreachable) []).
Proof.
  intros fs. split.
  - destruct (@Latest_save_to_json_untouched not_found_world _ plain_files
                latest_converter "sensor_things_output.json" fs)
      as (_ & Hstatus).
    apply (Hstatus (Demo.http_response 404 "Not Found"
                      (Raise (Exn JSONDecodeError "Expecting value"))));
      [reflexivity|simpl; lia].
  - destruct (@Latest_save_to_json_untouched unreachable_world _ plain_files
                latest_converter "sensor_things_output.json" fs)
      as (Hraise & _).
    apply Hraise. reflexivity.
Defined.

(** With an unreachable upstream the file is written, with no
    Observation. *)
Lemma save_timeseries_to_json_writes_witness :
  "11117" <> "" /\
  (@Saving.save_timeseries_to_json unreachable_world _ plain_files
     timeseries_converter "11117" "timeseries_11117.json" None None ∅).1
  = {[ "timeseries_11117.json" := PyDict [("Observations", PyList [])] ]}.
Proof.
  split; [discriminate|].
  destruct (@save_timeseries_to_json_writes unreachable_world _ plain_files
              timeseries_converter "11117" "timeseries_11117.json"
              None None ∅) as (obs & Hrun & Hfs & _); [discriminate|].
  rewrite Hfs. assert (obs = []) as -> by (by injection Hrun).
  reflexivity.
Defined.

(** On a 404 the older converter saves nothing and raises nothing. *)
Lemma Legacy_save_to_json_skips_witness :
  @Saving.Legacy_save_to_json not_found_world _ plain_files
    older_converter "sensor_data.json" ∅
  = (∅, IO (Return tt) ["Error: Request failed with status code 404"]).
Proof.
  apply (@Legacy_save_to_json_skips not_found_world _ plain_files
           older_converter "sensor_data.json" ∅
           (Demo.http_response 404 "Not Found"
              (Raise (Exn JSONDecodeError "Expecting value"))));
    [reflexivity|discriminate].
Defined.

(** ** More on the snapshot *)

Section SnapshotMore.
Context `{World}.

(** X28. LocationBuilder.build returns exactly for the row sets
    without a Point that lacks coordinates; at the first row with such
    a Point it raises what shapely raises for the coordinate, and no
    Location of any row is returned. *)
Theorem LocationBuilder_build_returns_iff (df pre post : list row)
    (r : row) :
  ((exists locations, Latest.LocationBuilder_build df = Return locations)
   <-> Forall (fun r => has_empty_point r = false) df) /\
  (Forall (fun r => has_empty_point r = false) pre ->
   has_empty_point r = true ->
   Latest.LocationBuilder_build (pre ++ r :: post) = Raise empty_point_error).
Proof.
  split; [split|].
  - intros [locations Hb]. by apply LocationBuilder_build_inv in Hb as [? _].
  - intros Hdf. eexists. by apply LocationBuilder_build_omap.
  - apply LocationBuilder_loop_raises.
Qed.

(** X23. [fetch_latest] of the snapshot client fails for the statuses
    from 400 to 599 and for no other: every other status, a 304 or a
    204 as well as a 200, gives the text of the body. *)
Theorem fetch_latest_returns_iff (self : Latest.SmartUrbanHeatMapClient)
    (r : response) :
  requests_get (Latest.base_url self +:+ "/latest") = Return r ->
  ((exists raw, Latest.fetch_latest self = Return raw)
   <-> status_code r < 400 \/ 600 <= status_code r) /\
  (status_code r < 400 \/ 600 <= status_code r ->
   Latest.fetch_latest self = Return (text r)).
Proof.
  intros Hget. unfold Latest.fetch_latest. rewrite Hget. cbn [rbind].
  assert (status_code r < 400 \/ 600 <= status_code r ->
          (let! _ := raise_for_status r in Return (text r))
          = Return (text r)) as Hok.
  { intros Hs. by rewrite (raise_for_status_ok r Hs). }
  split; [|done]. split; [|by eexists; apply Hok].
  intros [raw Hraw].
  destruct (decide (400 <= status_code r < 600)) as [Hs|Hs]; [|lia].
  destruct (raise_for_status_error r Hs) as [msg Hmsg].
  by rewrite Hmsg in Hraw.
Qed.

Lemma omap_length_le {A B} (f : A -> option B) (l : list A) :
  (length (omap f l) <= length l)%nat.
Proof.
  induction l as [|x l IH]; [done|].
  change (omap f (x :: l)) with
    (match f x with Some y => y :: omap f l | None => omap f l end).
  destruct (f x); simpl; lia.
Qed.

Lemma omap_length_all {A B} (f : A -> option B) (l : list A) :
  length (omap f l) = length l <-> Forall (fun x => is_Some (f x)) l.
Proof.
  induction l as [|x l IH]; [by split; [constructor|]|].
  change (omap f (x :: l)) with
    (match f x with Some y => y :: omap f l | None => omap f l end).
  pose proof (omap_length_le f l) as Hle.
  rewrite Forall_cons. destruct (f x) as [y|]; simpl.
  - split.
    + intros Hlen. split; [by eexists|]. apply IH. lia.
    + intros [_ Hl]. f_equal. by apply IH.
  - split; [lia|]. by intros [[? ?] _].
Qed.

(** X24. The sizes of the four collections of a snapshot: twice as
    many Datastreams and Observations as Things, at most as many
    Locations as Things, and as many exactly when every row has a
    Point. *)
Theorem entity_counts (df : list row) (d : pyval) :
  Latest.entities df = Return d ->
  let things := collection d "Things" in
  let locations := collection d "Locations" in
  let datastreams := collection d "Datastreams" in
  let observations := collection d "Observations" in
  length datastreams = (2 * length things)%nat /\
  length observations = (2 * length things)%nat /\
  (length locations <= length things)%nat /\
  (length locations = length things
   <-> Forall (fun r => has_point r = true) df).
Proof.
  intros [_ ->]%entities_inv.
  cbn. rewrite ThingBuilder_build_map,
    DataStreamBuilder_build_bind, ObservationBuilder_build_bind.
  rewrite !bind_pair_length, length_fmap.
  split; [done|]. split; [done|]. split; [apply omap_length_le|].
  rewrite omap_length_all. apply Forall_iff. intros r.
  unfold location_of, has_point.
  destruct (row_get r "geometry" PyNone);
    (split; [by intros [? ?]|]); try done; by eexists.
Qed.

Lemma bind_pair_lookup_inv {A B} (f g : A -> B) (l : list A) (i : nat)
    (y : B) :
  (l ≫= fun x => [f x; g x]) !! i = Some y ->
  exists j x, l !! j = Some x /\
    ((i = (2 * j)%nat /\ y = f x) \/ (i = (2 * j + 1)%nat /\ y = g x)).
Proof.
  revert i. induction l as [|x l IH]; intros i Hi; [done|].
  rewrite bind_cons in Hi. destruct i as [|[|i]]; simpl in Hi.
  - exists 0%nat, x. split; [done|]. left. by simplify_eq.
  - exists 0%nat, x. split; [done|]. right. by simplify_eq.
  - destruct (IH i Hi) as (j & x' & Hj & Hcase).
    exists (S j), x'. split; [done|].
    destruct Hcase as [[-> ->]|[-> ->]]; [left|right]; (split; [lia|done]).
Qed.

(** X25. The Observations and the Datastreams of a snapshot run in
    parallel: the Observation at a position refers to the Datastream
    at the same position. *)
Theorem observations_align_with_datastreams (df : list row) (d : pyval)
    (i : nat) (o : pyval) :
  Latest.entities df = Return d ->
  collection d "Observations" !! i = Some o ->
  exists ds id,
    collection d "Datastreams" !! i = Some ds /\
    datastream_ref o = Some id /\
    field ds "@iot.id" = Some id.
Proof.
  intros [_ ->]%entities_inv.
  cbn. rewrite ObservationBuilder_build_bind, DataStreamBuilder_build_bind.
  intros (j & r & Hj & [[-> ->]|[-> ->]])%bind_pair_lookup_inv.
  - destruct (bind_pair_lookup Latest.temperature_datastream
                Latest.humidity_datastream df j r Hj) as [Hd _].
    by eexists _, _.
  - destruct (bind_pair_lookup Latest.temperature_datastream
                Latest.humidity_datastream df j r Hj) as [_ Hd].
    by eexists _, _.
Qed.
End SnapshotMore.

Section TimeseriesNull.
Context `{World}.

(** X26. In the time series the key decides, not the value: an entry
    whose "temperature" is there yields a temperature Observation with
    that value as result, null included. *)
Theorem build_keeps_null_readings (station_id iso : string)
    (d : list (string * pyval)) (v : pyval) :
  entry_time (PyDict d) = Return iso ->
  dict_get "temperature" d = Some v ->
  exists observations,
    Timeseries.TimeSeriesObservationBuilder_build station_id
      (PyList [PyDict d]) = Return observations /\
    PyDict [
      ("Datastream", PyDict [("@iot.id", PyStr (station_id +:+ "-temperature"))]);
      ("phenomenonTime", PyStr iso);
      ("resultTime", PyStr iso);
      ("result", v)] ∈ observations.
Proof.
  intros Htime Htemp. eexists. split.
  - apply build_well_formed. repeat constructor. by exists iso.
  - rewrite bind_cons. apply elem_of_app. left.
    unfold entry_expected. rewrite Htime. unfold expected_observations.
    cbn [py_in field]. rewrite Htemp.
    apply elem_of_app. left. by apply list_elem_of_singleton.
Qed.
End TimeseriesNull.

(** A 304 without a body is no failure of [fetch_latest]. *)
Lemma fetch_latest_returns_iff_witness :
  let W := Demo.world (Return (Demo.http_response 304 "" (Return PyNone))) [] in
  @requests_get W (Latest.base_url (Latest.client latest_converter) +:+ "/latest")
    = Return (Demo.http_response 304 "" (Return PyNone)) /\
  @Latest.fetch_latest W (Latest.client latest_converter) = Return "".
Proof.
  intros W. split; [reflexivity|].
  destruct (@fetch_latest_returns_iff W (Latest.client latest_converter)
              (Demo.http_response 304 "" (Return PyNone))) as [_ Hok];
    [reflexivity|].
  apply Hok. left. simpl. lia.
Defined.

(** In the snapshot of the two sample stations the fourth Observation
    refers to the fourth Datastream. *)
Lemma observations_align_with_datastreams_witness :
  let df := [Demo.station_row; Demo.bare_row] in
  let o := @Latest.humidity_observation snapshot_world Demo.bare_row in
  exists d,
    @Latest.entities snapshot_world df = Return d /\
    collection d "Observations" !! 3%nat = Some o /\
    exists ds id,
      collection d "Datastreams" !! 3%nat = Some ds /\
      datastream_ref o = Some id /\
      field ds "@iot.id" = Some id.
Proof.
  intros df o. eexists. split; [reflexivity|]. split; [reflexivity|].
  exact (@observations_align_with_datastreams snapshot_world df _ 3 o
           eq_refl eq_refl).
Defined.

(** A sample with "temperature": null yields an Observation with the
    result None. *)
Lemma build_keeps_null_readings_witness :
  let d := [("dateObserved", PyStr "2024-11-02T10:00:00Z");
            ("temperature", PyNone)] in
  @entry_time sound_world (PyDict d) = Return "2024-11-02T10:00:00+00:00" /\
  exists observations,
    @Timeseries.TimeSeriesObservationBuilder_build sound_world "11117"
      (PyList [PyDict d]) = Return observations /\
    PyDict [
      ("Datastream", PyDict [("@iot.id", PyStr ("11117" +:+ "-temperature"))]);
      ("phenomenonTime", PyStr "2024-11-02T10:00:00+00:00");
      ("resultTime", PyStr "2024-11-02T10:00:00+00:00");
      ("result", PyNone)] ∈ observations.
Proof.
  intros d. split; [reflexivity|].
  apply (@build_keeps_null_readings sound_world "11117"
           "2024-11-02T10:00:00+00:00" d PyNone); reflexivity.
Defined.

Lemma sample_rows_have_coordinates :
  Forall (fun r => has_empty_point r = false)
         ([Demo.station_row] ++ Demo.bare_row :: []).
Proof. repeat constructor. Defined.

(** Two stations, one without geometry: two Things, one Location. *)
Lemma LocationBuilder_build_only_points_witness :
  let df := [Demo.station_row] ++ Demo.bare_row :: [] in
  Forall (fun r => has_empty_point r = false) df /\
  length (Latest.ThingBuilder_build df) = length df /\
  exists locations,
    @Latest.LocationBuilder_build snapshot_world df = Return locations /\
    length locations = length (List.filter has_point df) /\
    length locations = 1%nat.
Proof.
  intros df. split; [exact sample_rows_have_coordinates|].
  destruct (@LocationBuilder_build_only_points snapshot_world df
              [Demo.station_row] [] Demo.bare_row
              sample_rows_have_coordinates sample_rows_have_coordinates)
    as (Hthings & _ & locations & lpre & lpost & Hb & Hlen & _).
  split; [exact Hthings|]. exists locations.
  split; [exact Hb|]. split; [exact Hlen|].
  rewrite Hlen. reflexivity.
Defined.

(** The snapshot of the two sample stations: two Things, one Location,
    four Datastreams, four Observations. *)
Lemma entity_counts_witness :
  let df := [Demo.station_row; Demo.bare_row] in
  exists d,
    @Latest.entities snapshot_world df = Return d /\
    length (collection d "Datastreams")
      = (2 * length (collection d "Things"))%nat /\
    (length (collection d "Locations")
       <= length (collection d "Things"))%nat.
Proof.
  intros df. eexists. split; [reflexivity|].
  destruct (@entity_counts snapshot_world df _ eq_refl)
    as (Hds & _ & Hloc & _).
  split; [exact Hds|exact Hloc].
Defined.

(** The station with a Point without coordinates comes second: the
    builder raises and the Location of the first station is lost. *)
Lemma LocationBuilder_build_returns_iff_witness :
  has_empty_point Demo.empty_point_row = true /\
  @Latest.LocationBuilder_build empty_point_world
    ([Demo.station_row] ++ Demo.empty_point_row :: [])
  = Raise (@empty_point_error empty_point_world).
Proof.
  split; [reflexivity|].
  destruct (@LocationBuilder_build_returns_iff empty_point_world []
              [Demo.station_row] [] Demo.empty_point_row) as [_ Hraise].
  apply Hraise; [repeat constructor|reflexivity].
Defined.
